(** * alzdc.py: the diet quiz and the dataset analysis, embedded in Rocq

    The script runs top to bottom on every page interaction.  Its first
    part asks eight questions through [st.selectbox] and accumulates three
    module-level counters; its second part loads [brain_diet_data.csv],
    derives a [diet_score] column and hands the frame to pandas, scipy and
    matplotlib inside a [try ... except FileNotFoundError].

    Python integers are unbounded ([Z]); a pandas column is int64 (a [Z]
    wrapped to 64 bits) or float64; Python and numpy floats are IEEE
    binary64, taken from the specification of floating-point arithmetic of
    the standard library ([SpecFloat], precision 53, exponent bound 1024). *)

From Stdlib Require Import ZArith Lia SpecFloat.
From stdpp Require Import base option list strings gmap pretty.

Local Open Scope Z_scope.

(** ** Exceptions and the result of a computation that may raise *)

(** [KeyError key] is what [df[col]] raises for a missing column;
    [KeyErrorNotInIndex missing] is the [KeyError] of [df[list of names]],
    whose message lists the names that are not columns.  [EmptyDataError]
    and [ParserError] are those of [pandas.errors]. *)
Inductive exn :=
  | ZeroDivisionError
  | ValueError
  | OverflowError
  | FileNotFoundError (path : string)
  | KeyError (key : string)
  | KeyErrorNotInIndex (missing : list string)
  | EmptyDataError
  | ParserError
  | LibraryError.

Inductive res (A : Type) :=
  | Ok (a : A)
  | Raise (e : exn).
Arguments Ok {A} a.
Arguments Raise {A} e.

Definition rbind {A B} (c : res A) (k : A → res B) : res B :=
  match c with
  | Ok a => k a
  | Raise e => Raise e
  end.

Notation "x ←r c ; k" := (rbind c (λ x, k))
  (at level 100, c at next level, right associativity).

(** ** Python floats *)

Module Float.

Definition prec : Z := 53.
Definition emax : Z := 1024.

(** [float(n)] for an integer: the nearest binary64 *)
Definition of_int (n : Z) : spec_float := binary_normalize prec emax n 0 false.

Definition add : spec_float → spec_float → spec_float := SFadd prec emax.
Definition sub : spec_float → spec_float → spec_float := SFsub prec emax.
Definition mul : spec_float → spec_float → spec_float := SFmul prec emax.
Definition div : spec_float → spec_float → spec_float := SFdiv prec emax.

(** The binary64 nearest to [n/d]: what a short decimal literal such as
    0.1 (1/10) is read as. *)
Definition ratio (n d : Z) : spec_float := div (of_int n) (of_int d).

(** [a / b] on two Python integers: [ZeroDivisionError] on a zero divisor,
    otherwise the quotient rounded once (both operands are exact below
    2^53, the only range the counters of this script reach). *)
Definition truediv (a b : Z) : res spec_float :=
  if b =? 0 then Raise ZeroDivisionError
  else Ok (div (of_int a) (of_int b)).

(** [int(x)]: truncation toward zero; NaN and the infinities raise *)
Definition to_int (x : spec_float) : res Z :=
  match x with
  | S754_zero _ => Ok 0
  | S754_infinity _ => Raise OverflowError
  | S754_nan => Raise ValueError
  | S754_finite s m e =>
      let a := match e with
               | Z0 => Zpos m
               | Zpos p => Zpos m * 2 ^ Zpos p
               | Zneg p => Zpos m / 2 ^ Zpos p
               end in
      Ok (if s then - a else a)
  end.

End Float.

(** ** Part 1: the quiz *)

(** The module-level counters [score], [healthy], [unhealthy]. *)
Record Globals := mkGlobals {
  score : Z;
  healthy : Z;
  unhealthy : Z
}.

(** What the session holds for each widget key: the label selected. *)
Definition AnswerSet := gmap string string.

(** [st.selectbox(question, options, key=key)]: the label stored under
    [key] when it is one of [options]; the first option when the widget has
    not been touched or the stored label is not an option; [None] when
    there is no option at all. *)
Definition selectbox (ui : AnswerSet) (question : string)
    (options : list string) (key : string) : option string :=
  match ui !! key with
  | Some label => if decide (label ∈ options) then Some label else head options
  | None => head options
  end.

(** [mapping.get(ans, 0)] *)
Definition mapping_get (mapping : gmap string Z) (ans : option string) (dflt : Z) : Z :=
  match ans with
  | Some label => default dflt (mapping !! label)
  | None => dflt
  end.

Definition ask (ui : AnswerSet) (question : string) (options : list string)
    (mapping : gmap string Z) (key : string) (g : Globals) : Globals :=
  let ans := selectbox ui question options key in
  let delta := mapping_get mapping ans 0 in
  let g := mkGlobals (score g + delta) (healthy g) (unhealthy g) in
  if 0 <? delta then mkGlobals (score g) (healthy g + 1) (unhealthy g)
  else if delta <? 0 then mkGlobals (score g) (healthy g) (unhealthy g + 1)
  else g.

Definition Question : Type := string * list string * gmap string Z.

Definition dict (l : list (string * Z)) : gmap string Z := list_to_map l.

Definition questions : list Question := [
  ("Servings of leafy greens per week", ["None";"1–3";"4–6";"7+"], dict [("1–3",1);("4–6",2);("7+",3)]);
  ("Servings of berries per week",      ["None";"1–2";"3–4";"5+"], dict [("1–2",1);("3–4",2);("5+",3)]);
  ("Servings of fish per week",         ["None";"1–2";"3–4";"5+"], dict [("1–2",1);("3–4",2);("5+",3)]);
  ("Servings of nuts per week",         ["None";"1–2";"3–4";"5+"], dict [("1–2",1);("3–4",2);("5+",3)]);
  ("Use of olive oil daily",            ["Never";"Sometimes";"Daily"], dict [("Sometimes",1);("Daily",2)]);
  ("Servings of whole grains per day",  ["<1";"1–2";"3–4";"5+"], dict [("1–2",1);("3–4",2);("5+",3)]);
  ("Servings of red meat per week",     ["5+";"3–4";"1–2";"None"], dict [("3–4",-1);("5+",-2)]);
  ("Sugary snacks or soda per week",    ["Daily";"Several";"Weekly";"Rarely"], dict [("Several",-1);("Daily",-2)])
].

Definition question_label (idx : nat) (q : string) : string :=
  pretty (idx + 1)%nat +:+ ". " +:+ q.

Definition question_key (idx : nat) : string := "q" +:+ pretty idx.

(** [for idx, (q, opts, mp) in enumerate(questions): ask(...)], started at
    index [idx] *)
Fixpoint ask_all (ui : AnswerSet) (idx : nat) (qs : list Question) (g : Globals) : Globals :=
  match qs with
  | [] => g
  | (q, opts, mp) :: qs' =>
      ask_all ui (S idx) qs' (ask ui (question_label idx q) opts mp (question_key idx) g)
  end.

(** [int(healthy/total*100) if total>0 else 0] *)
Definition percent_healthy_of (healthy unhealthy : Z) : res Z :=
  let total := healthy + unhealthy in
  if 0 <? total then
    ratio ←r Float.truediv healthy total;
    Float.to_int (Float.mul ratio (Float.of_int 100))
  else Ok 0.

(** Lines 22-55: the counters are reset, every question is asked, the
    percentage is computed.  [g0] is whatever the counters held before. *)
Record QuizResult := mkQuizResult {
  total_score : Z;
  healthy_count : Z;
  unhealthy_count : Z;
  percent_healthy : Z
}.

Definition reset (g0 : Globals) : Globals := mkGlobals 0 0 0.

Definition quiz (g0 : Globals) (ui : AnswerSet) : res (Globals * QuizResult) :=
  let g := ask_all ui 0 questions (reset g0) in
  pct ←r percent_healthy_of (healthy g) (unhealthy g);
  Ok (g, mkQuizResult (score g) (healthy g) (unhealthy g) pct).

(** ** Part 2: the dataset *)

(** A column of a frame.  The script takes every column it reads to be
    numeric: [read_csv] gives a column of integer literals the type int64
    and a column with a decimal or an empty cell the type float64 (an
    empty cell is NaN). *)
Inductive Series :=
  | Int64 (cells : list Z)
  | Float64 (cells : list spec_float).

(** One cell of a column. *)
Inductive Cell :=
  | IntCell (z : Z)
  | FloatCell (x : spec_float).

Definition wrap64 (z : Z) : Z := (z + 2 ^ 63) mod 2 ^ 64 - 2 ^ 63.
Definition add64 (a b : Z) : Z := wrap64 (a + b).
Definition sub64 (a b : Z) : Z := wrap64 (a - b).

(** The cells of a column as float64, the conversion numpy applies to an
    int64 operand that meets a float64 one. *)
Definition floats (s : Series) : list spec_float :=
  match s with
  | Int64 cells => Float.of_int <$> cells
  | Float64 cells => cells
  end.

Definition cell_float (c : Cell) : spec_float :=
  match c with
  | IntCell z => Float.of_int z
  | FloatCell x => x
  end.

(** [s + t] and [s - t] on two columns of one frame, cell by cell: int64,
    wrapping, when both columns are; float64 otherwise. *)
Definition series_add (s t : Series) : Series :=
  match s, t with
  | Int64 a, Int64 b => Int64 (zip_with add64 a b)
  | _, _ => Float64 (zip_with Float.add (floats s) (floats t))
  end.

Definition series_sub (s t : Series) : Series :=
  match s, t with
  | Int64 a, Int64 b => Int64 (zip_with sub64 a b)
  | _, _ => Float64 (zip_with Float.sub (floats s) (floats t))
  end.

(** The same two operations on one cell of each column. *)
Definition cell_add (a b : Cell) : Cell :=
  match a, b with
  | IntCell x, IntCell y => IntCell (add64 x y)
  | _, _ => FloatCell (Float.add (cell_float a) (cell_float b))
  end.

Definition cell_sub (a b : Cell) : Cell :=
  match a, b with
  | IntCell x, IntCell y => IntCell (sub64 x y)
  | _, _ => FloatCell (Float.sub (cell_float a) (cell_float b))
  end.

Definition series_length (s : Series) : nat :=
  match s with
  | Int64 cells => length cells
  | Float64 cells => length cells
  end.

Definition series_lookup (s : Series) (i : nat) : option Cell :=
  match s with
  | Int64 cells => IntCell <$> cells !! i
  | Float64 cells => FloatCell <$> cells !! i
  end.

Definition series_take (n : nat) (s : Series) : Series :=
  match s with
  | Int64 cells => Int64 (take n cells)
  | Float64 cells => Float64 (take n cells)
  end.

(** A frame: its columns by name. *)
Definition DataFrame := gmap string Series.

(** All columns of a frame have the same number of cells. *)
Definition rectangular (n : nat) (df : DataFrame) : Prop :=
  ∀ c s, df !! c = Some s → series_length s = n.

(** [df[col]] *)
Definition getitem (df : DataFrame) (col : string) : res Series :=
  match df !! col with
  | Some s => Ok s
  | None => Raise (KeyError col)
  end.

(** [df.head()] *)
Definition df_head (df : DataFrame) : DataFrame := series_take 5 <$> df.

(** A file next to the script: delimited text that parses into a table, or
    text that does not parse. *)
Inductive File :=
  | Csv (table : DataFrame)
  | Malformed.

(** The files next to the script, by path. *)
Definition FileSystem := gmap string File.

Definition data_path : string := "brain_diet_data.csv".

(** [pd.read_csv(path)]: a file without a single column (an empty file)
    raises [EmptyDataError], text that does not parse [ParserError]. *)
Definition read_csv (fs : FileSystem) (path : string) : res DataFrame :=
  match fs !! path with
  | Some (Csv df) => if decide (size df = 0%nat) then Raise EmptyDataError else Ok df
  | Some Malformed => Raise ParserError
  | None => Raise (FileNotFoundError path)
  end.

(** The body of [load_and_prepare] (lines 76-83). *)
Definition load_and_prepare_body (fs : FileSystem) : res DataFrame :=
  df ←r read_csv fs data_path;
  leafy_greens ←r getitem df "leafy_greens";
  berries ←r getitem df "berries";
  let acc := series_add leafy_greens berries in
  fish ←r getitem df "fish";
  let acc := series_add acc fish in
  nuts ←r getitem df "nuts";
  let acc := series_add acc nuts in
  olive_oil ←r getitem df "olive_oil";
  let acc := series_add acc olive_oil in
  red_meat ←r getitem df "red_meat";
  let acc := series_sub acc red_meat in
  sweets ←r getitem df "sweets";
  let acc := series_sub acc sweets in
  fast_food ←r getitem df "fast_food";
  let acc := series_sub acc fast_food in
  Ok (<["diet_score" := acc]> df).

(** [@st.cache_data] on a function without arguments: one slot, filled by
    the first call that returns, and served from then on without running
    the body; a call that raises leaves the slot empty. *)
Definition Cache := option DataFrame.

Definition load_and_prepare (cache : Cache) (fs : FileSystem) : Cache * res DataFrame :=
  match cache with
  | Some df => (cache, Ok df)
  | None =>
      match load_and_prepare_body fs with
      | Ok df => (Some df, Ok df)
      | Raise e => (None, Raise e)
      end
  end.

(** The formula of the data model on one row, in the words of the
    specification: the five positive contributors minus the three negative
    ones.  [diet_score_spec] is the formula on the integers,
    [diet_score_spec64] the same grouping in the arithmetic of the columns. *)
Definition diet_score_spec (leafy_greens berries fish nuts olive_oil red_meat sweets fast_food : Z) : Z :=
  (leafy_greens + berries + fish + nuts + olive_oil) - (red_meat + sweets + fast_food).

Definition diet_score_spec64 (leafy_greens berries fish nuts olive_oil red_meat sweets fast_food : Z) : Z :=
  sub64 (add64 (add64 (add64 (add64 leafy_greens berries) fish) nuts) olive_oil)
        (add64 (add64 red_meat sweets) fast_food).

(** What lines 78-82 compute on one row: the additions and subtractions
    from left to right, in the arithmetic of the cells. *)
Definition diet_score_chain (leafy_greens berries fish nuts olive_oil red_meat sweets fast_food : Cell) : Cell :=
  cell_sub (cell_sub (cell_sub
    (cell_add (cell_add (cell_add (cell_add leafy_greens berries) fish) nuts) olive_oil)
    red_meat) sweets) fast_food.

(** The grouping of the specification on one row, in the arithmetic of the
    cells: the sum of the five minus the sum of the three. *)
Definition diet_score_grouped (leafy_greens berries fish nuts olive_oil red_meat sweets fast_food : Cell) : Cell :=
  cell_sub (cell_add (cell_add (cell_add (cell_add leafy_greens berries) fish) nuts) olive_oil)
           (cell_add (cell_add red_meat sweets) fast_food).

(** The cell of column [col] in row [i]. *)
Definition cell (df : DataFrame) (col : string) (i : nat) : option Cell :=
  s ← df !! col; series_lookup s i.

(** The eight columns the derived score reads. *)
Definition diet_columns : list string :=
  ["leafy_greens"; "berries"; "fish"; "nuts"; "olive_oil"; "red_meat"; "sweets"; "fast_food"].

(** ** The script *)

Section Script.

(** The numeric routines of pandas and scipy and the formatting of their
    floating-point results are taken as given. *)
Context {Matrix Fit : Type}.
(** [df[vars_corr].corr()] on the selected columns *)
Variable corr : list Series → Matrix.
(** [linregress(x, y)] *)
Variable linregress : Series → Series → res Fit.
(** the two f-strings of lines 119 and 120 *)
Variable regression_text : Fit → string.
Variable pearson_text : Fit → string.

Inductive figure :=
  | Pie (healthy unhealthy : Z)
  | Histograms (diet cognitive : Series)
  | Matshow (m : Matrix) (ticks : list string)
  | ScatterFit (x y : Series) (fit : Fit).

(** One display call. *)
Inductive output :=
  | StTitle (s : string)
  | StWrite (s : string)
  | StHeader (s : string)
  | StSubheader (s : string)
  | StPyplot (fig : figure)
  | StDataframe (df : DataFrame)
  | StError (s : string)
  | StMarkdown (s : string).

(** A statement sequence that displays as it goes and may raise: what
    was displayed before the exception stays on the page. *)
Definition M (A : Type) : Type := list output * res A.

Definition mret {A} (a : A) : M A := ([], Ok a).

Definition mbind {A B} (c : M A) (k : A → M B) : M B :=
  match c with
  | (out, Ok a) => let '(out', r) := k a in (out ++ out', r)
  | (out, Raise e) => (out, Raise e)
  end.

Definition emit (o : output) : M unit := ([o], Ok tt).

Definition lift {A} (r : res A) : M A := ([], r).

Notation "x ←m c ; k" := (mbind c (λ x, k))
  (at level 100, c at next level, right associativity).
Notation "c ;;m k" := (mbind c (λ _, k))
  (at level 100, k at level 200, right associativity).

(** [try: body  except FileNotFoundError: handler] *)
Definition try_except_FileNotFoundError (body handler : M unit) : M unit :=
  match body with
  | (out, Raise (FileNotFoundError _)) =>
      let '(out', r) := handler in (out ++ out', r)
  | _ => body
  end.

(** Lines 8-15. *)
Definition intro : M unit :=
  emit (StTitle "Diet and Brain Health Explorer") ;;m
  emit (StWrite "Complete the quiz to see how brain-healthy your diet is, then explore how diet scores relate to cognitive test results.").

(** [ax1.pie([healthy, unhealthy], ...)] (line 65): matplotlib refuses a
    negative wedge, and with two zero wedges the normalised sizes are NaN
    and the call ends in [ValueError]. *)
Definition ax_pie (healthy unhealthy : Z) : res figure :=
  if (healthy <? 0) || (unhealthy <? 0) then Raise ValueError
  else if healthy + unhealthy =? 0 then Raise ValueError
  else Ok (Pie healthy unhealthy).

(** Lines 20-67. *)
Definition quiz_section (g0 : Globals) (ui : AnswerSet) : M (Globals * QuizResult) :=
  emit (StHeader "1. Personal Diet Quiz") ;;m
  gr ←m lift (quiz g0 ui);
  let r := gr.2 in
  emit (StSubheader "Quiz Results") ;;m
  emit (StWrite ("• Total score: **" +:+ pretty (total_score r) +:+ "**")) ;;m
  emit (StWrite ("• Healthy choices: **" +:+ pretty (healthy_count r)
               +:+ "**  Unhealthy choices: **" +:+ pretty (unhealthy_count r) +:+ "**")) ;;m
  emit (StWrite ("• Percent healthy: **" +:+ pretty (percent_healthy r) +:+ "%**")) ;;m
  fig ←m lift (ax_pie (healthy_count r) (unhealthy_count r));
  emit (StPyplot fig) ;;m
  mret gr.

Definition vars_corr : list string :=
  ["diet_score"; "cognitive_score"; "microbiome_diversity"; "amyloid_beta"; "tau_protein"].

Definition has_column (df : DataFrame) (col : string) : bool :=
  match df !! col with
  | Some _ => true
  | None => false
  end.

(** [df[vars_corr]]: the listed columns, in order; when some are missing,
    one [KeyError] that names all the missing ones *)
Definition getitems (df : DataFrame) (cols : list string) : res (list Series) :=
  match filter (λ col, negb (has_column df col)) cols with
  | [] => Ok (omap (λ col, df !! col) cols)
  | missing => Raise (KeyErrorNotInIndex missing)
  end.

Definition not_found_message : string :=
  "Data file 'brain_diet_data.csv' not found. Please place it next to this script.".

(** Lines 86-129: the body of the [try]. *)
Definition analysis_body (loaded : res DataFrame) : M unit :=
  df ←m lift loaded;
  emit (StWrite "Sample of imported data:") ;;m
  emit (StDataframe (df_head df)) ;;m
  diet ←m lift (getitem df "diet_score");
  cognitive ←m lift (getitem df "cognitive_score");
  emit (StPyplot (Histograms diet cognitive)) ;;m
  selected ←m lift (getitems df vars_corr);
  emit (StPyplot (Matshow (corr selected) vars_corr)) ;;m
  x ←m lift (getitem df "diet_score");
  y ←m lift (getitem df "cognitive_score");
  fit ←m lift (linregress x y);
  emit (StWrite (regression_text fit)) ;;m
  emit (StWrite (pearson_text fit)) ;;m
  emit (StPyplot (ScatterFit x y fit)).

(** Lines 72-132. *)
Definition analysis_section (cache : Cache) (fs : FileSystem) : Cache * M unit :=
  let '(cache', loaded) := load_and_prepare cache fs in
  (cache',
   emit (StHeader "2. Sample Data & Analysis") ;;m
   try_except_FileNotFoundError (analysis_body loaded) (emit (StError not_found_message))).

(** Lines 137-142. *)
Definition references : M unit :=
  emit (StHeader "References") ;;m
  emit (StMarkdown "- Alzheimer’s Association: https://www.alz.org
- CDC – Diet and Alzheimer’s Disease: https://www.cdc.gov/alzheimers/diet
- National Institute on Aging – MIND Diet: https://www.nia.nih.gov/health/mind-diet").

(** What one run of the script starts from: the counters and the cache
    left by earlier runs, the selections on the page and the files. *)
Record World := mkWorld {
  globals : Globals;
  cached : Cache;
  answers : AnswerSet;
  files : FileSystem
}.

(** What one run leaves: the page, the exception that ended the run, if
    any, and the cache. *)
Record Run := mkRun {
  page : list output;
  status : res unit;
  cache_after : Cache
}.

Definition script (w : World) : Run :=
  match intro ;;m quiz_section (globals w) (answers w) with
  | (out, Raise e) => mkRun out (Raise e) (cached w)
  | (out, Ok _) =>
      let '(cache', analysis) := analysis_section (cached w) (files w) in
      let '(out', r) := analysis ;;m references in
      mkRun (out ++ out') r cache'
  end.

(** The displays of the quiz part: the first eight of a run. *)
Definition quiz_page (r : Run) : list output := take 8 (page r).

End Script.

Arguments StTitle {Matrix Fit} s.
Arguments StWrite {Matrix Fit} s.
Arguments StHeader {Matrix Fit} s.
Arguments StSubheader {Matrix Fit} s.
Arguments StError {Matrix Fit} s.
Arguments StMarkdown {Matrix Fit} s.
Arguments StDataframe {Matrix Fit} df.
Arguments Pie {Matrix Fit} healthy unhealthy.

(** ** The quiz as a tally of the eight deltas *)

(** The result of the quiz alone. *)
Definition quiz_result (g0 : Globals) (ui : AnswerSet) : res QuizResult :=
  gr ←r quiz g0 ui; Ok gr.2.

(** What [ask] does to the counters once the delta is known. *)
Definition step (delta : Z) (g : Globals) : Globals :=
  let g := mkGlobals (score g + delta) (healthy g) (unhealthy g) in
  if 0 <? delta then mkGlobals (score g) (healthy g + 1) (unhealthy g)
  else if delta <? 0 then mkGlobals (score g) (healthy g) (unhealthy g + 1)
  else g.

Definition tally (deltas : list Z) (g : Globals) : Globals := foldl (flip step) g deltas.

(** The delta question [idx] contributes under the selections [ui]. *)
Definition delta_at (ui : AnswerSet) (idx : nat) (q : Question) : Z :=
  let '(text, opts, mp) := q in
  mapping_get mp (selectbox ui (question_label idx text) opts (question_key idx)) 0.

Fixpoint deltas_from (ui : AnswerSet) (idx : nat) (qs : list Question) : list Z :=
  match qs with
  | [] => []
  | q :: qs' => delta_at ui idx q :: deltas_from ui (S idx) qs'
  end.

Definition deltas (ui : AnswerSet) : list Z := deltas_from ui 0 questions.

Definition sumZ (l : list Z) : Z := foldr Z.add 0 l.
Definition count_pos (l : list Z) : Z := Z.of_nat (length (filter (λ d, 0 < d) l)).
Definition count_neg (l : list Z) : Z := Z.of_nat (length (filter (λ d, d < 0) l)).

(** The percentage on the integers: [100*healthy] divided by the total,
    rounded down; 0 when nothing was counted. *)
Definition percent_exact (healthy unhealthy : Z) : Z :=
  if 0 <? healthy + unhealthy then 100 * healthy / (healthy + unhealthy) else 0.

(** The floating-point computation returns the exact percentage. *)
Definition percent_agrees (h u : Z) : bool :=
  match percent_healthy_of h u with
  | Ok p => p =? percent_exact h u
  | Raise _ => false
  end.

(** ** Sample inputs *)

(** The healthiest selection of every question. *)
Definition best : AnswerSet :=
  list_to_map [("q0","7+");("q1","5+");("q2","5+");("q3","5+");("q4","Daily");
               ("q5","5+");("q6","None");("q7","Rarely")].

(** The zero-delta option of every question. *)
Definition neutral : AnswerSet :=
  list_to_map [("q0","None");("q1","None");("q2","None");("q3","None");("q4","Never");
               ("q5","<1");("q6","None");("q7","Rarely")].

(** A stored label that no option list contains. *)
Definition stray : AnswerSet := {[ "q6" := "banana" ]}.

(** A table of three rows; the first is the row of the data-model example. *)
Definition sample_table : DataFrame :=
  list_to_map [("leafy_greens", Int64 [2; 0; 7]); ("berries", Int64 [1; 0; 5]);
               ("fish", Int64 [0; 1; 2]); ("nuts", Int64 [1; 0; 3]);
               ("olive_oil", Int64 [1; 0; 1]); ("red_meat", Int64 [1; 4; 0]);
               ("sweets", Int64 [0; 5; 1]); ("fast_food", Int64 [1; 3; 0]);
               ("cognitive_score", Int64 [27; 21; 30]);
               ("microbiome_diversity", Int64 [3; 2; 4]);
               ("amyloid_beta", Int64 [5; 9; 4]); ("tau_protein", Int64 [3; 6; 2])].

Definition sample_files : FileSystem := {[ data_path := Csv sample_table ]}.

(** A table of one row with decimal cells: 0.1 serving of leafy greens,
    red meat, sweets and fast food, none of the rest. *)
Definition decimal_table : DataFrame :=
  list_to_map [("leafy_greens", Float64 [Float.ratio 1 10]); ("berries", Int64 [0]);
               ("fish", Int64 [0]); ("nuts", Int64 [0]); ("olive_oil", Int64 [0]);
               ("red_meat", Float64 [Float.ratio 1 10]);
               ("sweets", Float64 [Float.ratio 1 10]);
               ("fast_food", Float64 [Float.ratio 1 10]);
               ("cognitive_score", Int64 [27]); ("microbiome_diversity", Int64 [3]);
               ("amyloid_beta", Int64 [5]); ("tau_protein", Int64 [3])].

Definition decimal_files : FileSystem := {[ data_path := Csv decimal_table ]}.

(** What the quiz part displays for a result (lines 11-15, 20, 58-67). *)
Definition quiz_displays {Matrix Fit : Type} (r : QuizResult) : list (@output Matrix Fit) :=
  [ StTitle "Diet and Brain Health Explorer";
    StWrite "Complete the quiz to see how brain-healthy your diet is, then explore how diet scores relate to cognitive test results.";
    StHeader "1. Personal Diet Quiz";
    StSubheader "Quiz Results";
    StWrite ("• Total score: **" +:+ pretty (total_score r) +:+ "**");
    StWrite ("• Healthy choices: **" +:+ pretty (healthy_count r)
           +:+ "**  Unhealthy choices: **" +:+ pretty (unhealthy_count r) +:+ "**");
    StWrite ("• Percent healthy: **" +:+ pretty (percent_healthy r) +:+ "%**");
    StPyplot (Pie (healthy_count r) (unhealthy_count r)) ].

(** The error messages on a page. *)
Definition errors {Matrix Fit : Type} (p : list (@output Matrix Fit)) : list string :=
  omap (λ o, match o with StError s => Some s | _ => None end) p.

(** The tables on a page. *)
Definition tables {Matrix Fit : Type} (p : list (@output Matrix Fit)) : list DataFrame :=
  omap (λ o, match o with StDataframe df => Some df | _ => None end) p.

(** Two runs in a row, with pandas and scipy replaced by stand-ins: the
    first finds the file, the second starts from the cache the first left
    and finds no file. *)
Definition stub_script : World → @Run unit unit :=
  script (λ _, tt) (λ _ _, Ok tt) (λ _, "regression") (λ _, "pearson").

Definition first_run : @Run unit unit :=
  stub_script (mkWorld (mkGlobals 0 0 0) None best sample_files).

Definition second_run : @Run unit unit :=
  stub_script (mkWorld (mkGlobals 17 6 0) (cache_after first_run) best ∅).

(** The sample table once loaded, with its derived column. *)
Definition prepared_table : DataFrame := <["diet_score" := Int64 [3; -11; 17]]> sample_table.

(** A first run that finds no file. *)
Definition cold_absent : World := mkWorld (mkGlobals 0 0 0) None best ∅.

(** A first run that finds no file, with the zero-delta option of every
    question selected. *)
Definition zero_run : @Run unit unit :=
  stub_script (mkWorld (mkGlobals 0 0 0) None neutral ∅).



(** ** The tally *)

Lemma ask_step ui question options mapping key g :
  ask ui question options mapping key g
  = step (mapping_get mapping (selectbox ui question options key) 0) g.
Proof. reflexivity. Qed.

Lemma ask_all_tally ui qs : ∀ idx g,
  ask_all ui idx qs g = tally (deltas_from ui idx qs) g.
Proof.
  induction qs as [|[[text opts] mp] qs IH]; intros idx g; [done|].
  cbn [ask_all deltas_from]. rewrite IH. reflexivity.
Qed.

Lemma step_score d g : score (step d g) = score g + d.
Proof. unfold step. repeat case_match; reflexivity. Qed.

Lemma step_healthy d g :
  healthy (step d g) = healthy g + (if bool_decide (0 < d) then 1 else 0).
Proof.
  unfold step. case_bool_decide; destruct (Z.ltb_spec 0 d); try lia;
    [|destruct (Z.ltb_spec d 0)]; cbn; lia.
Qed.

Lemma step_unhealthy d g :
  unhealthy (step d g) = unhealthy g + (if bool_decide (d < 0) then 1 else 0).
Proof.
  unfold step. case_bool_decide; destruct (Z.ltb_spec 0 d); try lia;
    destruct (Z.ltb_spec d 0); cbn; lia.
Qed.

Lemma tally_counts ds : ∀ g,
  score (tally ds g) = score g + sumZ ds
  ∧ healthy (tally ds g) = healthy g + count_pos ds
  ∧ unhealthy (tally ds g) = unhealthy g + count_neg ds.
Proof.
  unfold tally, count_pos, count_neg.
  induction ds as [|d ds IH]; intros g; cbn [foldl sumZ foldr].
  - cbn. lia.
  - destruct (IH (flip step g d)) as (Hs & Hh & Hu). unfold flip in *.
    rewrite Hs, Hh, Hu, step_score, step_healthy, step_unhealthy.
    rewrite !filter_cons. fold (sumZ ds).
    repeat case_bool_decide; repeat case_decide; cbn [length]; lia.
Qed.

Lemma count_bounds ds :
  0 ≤ count_pos ds ∧ 0 ≤ count_neg ds
  ∧ count_pos ds + count_neg ds ≤ Z.of_nat (length ds).
Proof.
  unfold count_pos, count_neg. induction ds as [|d ds IH]; [cbn; lia|].
  rewrite !filter_cons. repeat case_decide; cbn [length]; lia.
Qed.

Lemma count_neg_nonneg ds : Forall (λ d, 0 ≤ d) ds → count_neg ds = 0.
Proof.
  unfold count_neg. induction 1 as [|d ds Hd _ IH]; [done|].
  rewrite filter_cons. case_decide; [lia | exact IH].
Qed.

Lemma count_pos_nonpos ds : Forall (λ d, d ≤ 0) ds → count_pos ds = 0.
Proof.
  unfold count_pos. induction 1 as [|d ds Hd _ IH]; [done|].
  rewrite filter_cons. case_decide; [lia | exact IH].
Qed.

Lemma count_pos_exists ds : Exists (λ d, 0 < d) ds → 0 < count_pos ds.
Proof.
  unfold count_pos. induction 1 as [d ds Hd|d ds _ IH];
    rewrite filter_cons; case_decide; cbn [length]; lia.
Qed.

Lemma count_pos_app ds1 ds2 : count_pos (ds1 ++ ds2) = count_pos ds1 + count_pos ds2.
Proof. unfold count_pos. rewrite filter_app, length_app. lia. Qed.

Lemma count_pos_all ds : Forall (λ d, 0 < d) ds → count_pos ds = Z.of_nat (length ds).
Proof.
  unfold count_pos. induction 1 as [|d ds Hd _ IH]; [done|].
  rewrite filter_cons. case_decide; cbn [length]; lia.
Qed.

Lemma sumZ_zero ds : Forall (λ d, d = 0) ds → sumZ ds = 0.
Proof. induction 1 as [|d ds Hd _ IH]; cbn; [done|]. fold (sumZ ds). lia. Qed.

Lemma deltas_from_length ui qs : ∀ idx, length (deltas_from ui idx qs) = length qs.
Proof. induction qs as [|q qs IH]; intros idx; cbn; [done|]. by rewrite IH. Qed.

Lemma deltas_from_lookup ui qs : ∀ idx k,
  deltas_from ui idx qs !! k = delta_at ui (idx + k) <$> qs !! k.
Proof.
  induction qs as [|q qs IH]; intros idx k; [done|].
  destruct k as [|k].
  - cbn. by rewrite Nat.add_0_r.
  - change ((q :: qs) !! S k) with (qs !! k).
    change (deltas_from ui (S idx) qs !! k = delta_at ui (idx + S k) <$> qs !! k).
    rewrite (IH (S idx) k).
    by replace (S idx + k)%nat with (idx + S k)%nat by lia.
Qed.

Lemma deltas_Forall (P : Z → Prop) ui :
  (∀ idx q, questions !! idx = Some q → P (delta_at ui idx q)) →
  Forall P (deltas ui).
Proof.
  intros H. apply Forall_lookup. intros k d Hk.
  unfold deltas in Hk. rewrite deltas_from_lookup in Hk.
  destruct (questions !! k) as [q|] eqn:Hq; [|done].
  cbn in Hk. injection Hk as <-. by apply H.
Qed.

Lemma deltas_length ui : length (deltas ui) = 8%nat.
Proof. unfold deltas. by rewrite deltas_from_length. Qed.

(** The counters after the loop, in terms of the eight deltas. *)
Lemma quiz_counters g0 ui :
  let g := ask_all ui 0 questions (reset g0) in
  score g = sumZ (deltas ui)
  ∧ healthy g = count_pos (deltas ui)
  ∧ unhealthy g = count_neg (deltas ui).
Proof.
  cbn zeta. rewrite ask_all_tally. fold (deltas ui).
  destruct (tally_counts (deltas ui) (reset g0)) as (Hs & Hh & Hu).
  rewrite Hs, Hh, Hu. cbn. lia.
Qed.

(** ** The percentage *)

Lemma percent_table :
  forallb (λ h, forallb (λ u, percent_agrees h u) (seqZ 0 9)) (seqZ 0 9) = true.
Proof. vm_compute. reflexivity. Qed.

(** On the counts the eight questions can produce, the floating-point
    computation never raises and is the exact rounded-down percentage. *)
Lemma percent_healthy_of_exact h u :
  0 ≤ h → 0 ≤ u → h + u ≤ 8 →
  percent_healthy_of h u = Ok (percent_exact h u).
Proof.
  intros Hh Hu Hsum.
  pose proof percent_table as T. rewrite forallb_forall in T.
  assert (Hin : ∀ x, 0 ≤ x < 9 → In x (seqZ 0 9)).
  { intros x Hx. apply list_elem_of_In, elem_of_seqZ. lia. }
  specialize (T h (Hin h ltac:(lia))). rewrite forallb_forall in T.
  specialize (T u (Hin u ltac:(lia))). unfold percent_agrees in T.
  destruct (percent_healthy_of h u) as [p|e]; [|done].
  apply Z.eqb_eq in T. by subst.
Qed.

Lemma percent_exact_range h u : 0 ≤ h → 0 ≤ u → 0 ≤ percent_exact h u ≤ 100.
Proof.
  intros Hh Hu. unfold percent_exact. destruct (Z.ltb_spec 0 (h + u)); [|lia].
  split.
  - apply Z.div_pos; lia.
  - apply Z.div_le_upper_bound; lia.
Qed.

Lemma percent_exact_all_healthy h : 0 < h → percent_exact h 0 = 100.
Proof.
  intros Hh. unfold percent_exact. rewrite Z.add_0_r.
  destruct (Z.ltb_spec 0 h); [|lia]. apply Z.div_mul. lia.
Qed.

(** The quiz always returns, and what it returns. *)
Lemma quiz_returns g0 ui :
  ∃ g, quiz g0 ui
       = Ok (g, mkQuizResult (sumZ (deltas ui)) (count_pos (deltas ui)) (count_neg (deltas ui))
                   (percent_exact (count_pos (deltas ui)) (count_neg (deltas ui)))).
Proof.
  unfold quiz. destruct (quiz_counters g0 ui) as (Hs & Hh & Hu).
  set (g := ask_all ui 0 questions (reset g0)) in *. exists g.
  destruct (count_bounds (deltas ui)) as (Hp & Hn & Hle). rewrite deltas_length in Hle.
  rewrite Hs, Hh, Hu, percent_healthy_of_exact by lia. reflexivity.
Qed.

Lemma quiz_result_returns g0 ui :
  quiz_result g0 ui
  = Ok (mkQuizResult (sumZ (deltas ui)) (count_pos (deltas ui)) (count_neg (deltas ui))
          (percent_exact (count_pos (deltas ui)) (count_neg (deltas ui)))).
Proof. unfold quiz_result. destruct (quiz_returns g0 ui) as [g ->]. reflexivity. Qed.

Lemma step_zero g : step 0 g = g.
Proof. destruct g as [s h u]. unfold step. cbn. by rewrite Z.add_0_r. Qed.

(** A mapping without positive values never yields a positive delta. *)
Lemma mapping_get_nonpos (l : list (string * Z)) ans :
  Forall (λ kv, kv.2 ≤ 0) l → mapping_get (dict l) ans 0 ≤ 0.
Proof.
  intros Hl. destruct ans as [label|]; cbn; [|lia].
  destruct (dict l !! label) as [v|] eqn:Hv; cbn; [|lia].
  apply elem_of_list_to_map_2 in Hv.
  rewrite Forall_forall in Hl. exact (Hl _ Hv).
Qed.

(** ** The claims on the quiz *)

(** C1. Whatever the answer set and the question, when the selected label
    is not a key of the question's delta mapping, [ask] takes the delta to
    be 0: the total score, the healthy count and the unhealthy count are
    left as they were, and the quiz as a whole returns a result rather than
    raising. *)
Theorem ask_unknown_label ui question options mapping key label :
  selectbox ui question options key = Some label →
  mapping !! label = None →
  mapping_get mapping (selectbox ui question options key) 0 = 0
  ∧ (∀ g, ask ui question options mapping key g = g)
  ∧ (∀ g0, ∃ r, quiz_result g0 ui = Ok r).
Proof.
  intros Hsel Hkey.
  assert (Hd : mapping_get mapping (selectbox ui question options key) 0 = 0).
  { rewrite Hsel. cbn. by rewrite Hkey. }
  split; [exact Hd|]. split.
  - intros g. rewrite ask_step, Hd. apply step_zero.
  - intros g0. rewrite quiz_result_returns. eauto.
Qed.

Lemma ask_unknown_label_witness :
  selectbox neutral "1. Servings of leafy greens per week" ["None";"1–3";"4–6";"7+"] "q0"
    = Some "None"
  ∧ ∀ g, ask neutral "1. Servings of leafy greens per week" ["None";"1–3";"4–6";"7+"]
             (dict [("1–3",1);("4–6",2);("7+",3)]) "q0" g = g.
Proof.
  split; [reflexivity|].
  apply (ask_unknown_label neutral "1. Servings of leafy greens per week"
           ["None";"1–3";"4–6";"7+"] (dict [("1–3",1);("4–6",2);("7+",3)]) "q0" "None");
    vm_compute; reflexivity.
Defined.

(** C4. For the answers 7+, 5+, 5+, 5+, Daily, 5+, None, Rarely the
    questions contribute 3, 3, 3, 3, 2, 3, 0, 0; the total score is 17, six
    answers are healthy, none is unhealthy, and the percentage is 100. *)
Theorem best_answers_result g0 :
  deltas best = [3; 3; 3; 3; 2; 3; 0; 0]
  ∧ quiz_result g0 best = Ok (mkQuizResult 17 6 0 100).
Proof. split; vm_compute; reflexivity. Qed.

(** C5. When every question is answered with a label whose delta is 0, the
    total score is 0 and the percentage is 0 (both counts are 0): the
    conditional returns 0 on the zero total, where the division alone would
    raise [ZeroDivisionError]. *)
Theorem zero_delta_answers ui g0 :
  Forall (λ d, d = 0) (deltas ui) →
  quiz_result g0 ui = Ok (mkQuizResult 0 0 0 0)
  ∧ percent_healthy_of 0 0 = Ok 0
  ∧ Float.truediv 0 (0 + 0) = Raise ZeroDivisionError.
Proof.
  intros H. split; [|split; reflexivity].
  rewrite quiz_result_returns, sumZ_zero by done.
  rewrite count_pos_nonpos, count_neg_nonneg; [done| |].
  - eapply Forall_impl; [exact H|]. cbn. lia.
  - eapply Forall_impl; [exact H|]. cbn. lia.
Qed.

Lemma zero_delta_answers_witness :
  Forall (λ d, d = 0) (deltas neutral)
  ∧ quiz_result (mkGlobals 4 1 2) neutral = Ok (mkQuizResult 0 0 0 0).
Proof.
  assert (H : Forall (λ d, d = 0) (deltas neutral)).
  { vm_compute. repeat constructor. }
  split; [exact H|]. exact (proj1 (zero_delta_answers neutral (mkGlobals 4 1 2) H)).
Defined.

(** Without a negative delta and with at least one positive delta, every
    counted answer is healthy. *)
Lemma no_negative_some_positive ui g0 :
  Forall (λ d, 0 ≤ d) (deltas ui) →
  Exists (λ d, 0 < d) (deltas ui) →
  ∃ r, quiz_result g0 ui = Ok r ∧ percent_healthy r = 100 ∧ unhealthy_count r = 0.
Proof.
  intros Hall Hex. rewrite quiz_result_returns. eexists. split; [reflexivity|].
  cbn [percent_healthy unhealthy_count healthy_count].
  rewrite count_neg_nonneg by done. split; [|done].
  apply percent_exact_all_healthy. by apply count_pos_exists.
Qed.

(** On the table of the script the healthiest answers contribute 0 on red
    meat and on sweets, and no answer set at all gives every one of the
    eight questions a strictly positive delta. *)
Lemma no_all_positive_answers :
  deltas best !! 6%nat = Some 0
  ∧ deltas best !! 7%nat = Some 0
  ∧ ¬ ∃ ui, Forall (λ d, 0 < d) (deltas ui).
Proof.
  split; [reflexivity|]. split; [reflexivity|].
  intros [ui H]. rewrite Forall_lookup in H.
  assert (Hd : deltas ui !! 6%nat
               = Some (mapping_get (dict [("3–4",-1);("5+",-2)])
                         (selectbox ui (question_label 6 "Servings of red meat per week")
                            ["5+";"3–4";"1–2";"None"] (question_key 6)) 0)).
  { reflexivity. }
  specialize (H _ _ Hd).
  pose proof (mapping_get_nonpos [("3–4",-1);("5+",-2)]
    (selectbox ui (question_label 6 "Servings of red meat per week")
       ["5+";"3–4";"1–2";"None"] (question_key 6))) as Hle.
  cbv beta in H. assert (Hv : Forall (λ kv : string * Z, kv.2 ≤ 0) [("3–4",-1);("5+",-2)]).
  { repeat constructor; cbn; lia. }
  specialize (Hle Hv). lia.
Qed.

(** When each of the first six questions is answered with a strictly
    positive delta and the red-meat and sweets questions, whose mappings
    hold no positive delta, with delta 0, the percentage is 100, the
    unhealthy count is 0 and the healthy count is 6. *)
Lemma healthy_answers_percent ui g0 :
  Forall (λ d, 0 < d) (take 6 (deltas ui)) →
  Forall (λ d, d = 0) (drop 6 (deltas ui)) →
  ∃ r, quiz_result g0 ui = Ok r
       ∧ percent_healthy r = 100 ∧ unhealthy_count r = 0 ∧ healthy_count r = 6.
Proof.
  intros Hpos Hzero.
  assert (Hlen := deltas_length ui).
  assert (Hall : Forall (λ d, 0 ≤ d) (deltas ui)).
  { rewrite <- (take_drop 6 (deltas ui)). apply Forall_app. split.
    - eapply Forall_impl; [exact Hpos|]. cbn. lia.
    - eapply Forall_impl; [exact Hzero|]. cbn. lia. }
  assert (Hcount : count_pos (deltas ui) = 6).
  { rewrite <- (take_drop 6 (deltas ui)), count_pos_app.
    rewrite (count_pos_nonpos (drop 6 (deltas ui))).
    2:{ eapply Forall_impl; [exact Hzero|]. cbn. lia. }
    rewrite count_pos_all, length_take by done. lia. }
  rewrite quiz_result_returns. eexists. split; [reflexivity|].
  cbn [percent_healthy unhealthy_count healthy_count].
  rewrite count_neg_nonneg, Hcount by done. done.
Qed.



(** C10. Whatever the answer set, labels outside the option lists
    included, the quiz returns a percentage between 0 and 100: both counts
    are non-negative, so the healthy count is at most the total; on a
    positive total the percentage is [100*healthy/total] rounded down; on a
    zero total it is 0. *)
Theorem percent_healthy_in_range g0 ui :
  ∃ r, quiz_result g0 ui = Ok r
       ∧ 0 ≤ percent_healthy r ≤ 100
       ∧ 0 ≤ healthy_count r ≤ healthy_count r + unhealthy_count r
       ∧ (0 < healthy_count r + unhealthy_count r →
          percent_healthy r * (healthy_count r + unhealthy_count r) ≤ 100 * healthy_count r
          ∧ 100 * healthy_count r < (percent_healthy r + 1) * (healthy_count r + unhealthy_count r))
       ∧ (healthy_count r + unhealthy_count r = 0 → percent_healthy r = 0).
Proof.
  rewrite quiz_result_returns. eexists. split; [reflexivity|].
  cbn [percent_healthy unhealthy_count healthy_count].
  destruct (count_bounds (deltas ui)) as (Hp & Hn & _).
  set (h := count_pos (deltas ui)) in *. set (u := count_neg (deltas ui)) in *.
  split; [by apply percent_exact_range|]. split; [lia|].
  unfold percent_exact. split.
  - intros Ht. destruct (Z.ltb_spec 0 (h + u)); [|lia].
    pose proof (Z.div_mod (100 * h) (h + u) ltac:(lia)) as Hdm.
    pose proof (Z.mod_pos_bound (100 * h) (h + u) ltac:(lia)) as Hmod.
    nia.
  - intros Ht. destruct (Z.ltb_spec 0 (h + u)); [lia|done].
Qed.

(** ** The derived column *)

Lemma wrap64_idemp_l a b : wrap64 (wrap64 a + b) = wrap64 (a + b).
Proof.
  unfold wrap64. f_equal.
  replace ((a + 2 ^ 63) mod 2 ^ 64 - 2 ^ 63 + b + 2 ^ 63)
    with ((a + 2 ^ 63) mod 2 ^ 64 + b) by lia.
  rewrite Zplus_mod_idemp_l. f_equal. lia.
Qed.

Lemma wrap64_idemp_r a b : wrap64 (a - wrap64 b) = wrap64 (a - b).
Proof.
  unfold wrap64. f_equal.
  replace (a - ((b + 2 ^ 63) mod 2 ^ 64 - 2 ^ 63) + 2 ^ 63)
    with (a + 2 ^ 63 + 2 ^ 63 - (b + 2 ^ 63) mod 2 ^ 64) by lia.
  rewrite Zminus_mod_idemp_r. f_equal. lia.
Qed.

Lemma wrap64_in_range z : - 2 ^ 63 ≤ z < 2 ^ 63 → wrap64 z = z.
Proof. intros Hz. unfold wrap64. rewrite Z.mod_small; lia. Qed.


Lemma add64_wrap_l x y : add64 (wrap64 x) y = wrap64 (x + y).
Proof. apply wrap64_idemp_l. Qed.

Lemma sub64_wrap_l x y : sub64 (wrap64 x) y = wrap64 (x - y).
Proof.
  unfold sub64. rewrite <- (Z.add_opp_r (wrap64 x)), wrap64_idemp_l.
  by rewrite Z.add_opp_r.
Qed.

Lemma diet_chain_wrap a b c d e f g h :
  sub64 (sub64 (sub64 (add64 (add64 (add64 (add64 a b) c) d) e) f) g) h
  = wrap64 (diet_score_spec a b c d e f g h).
Proof.
  change (add64 a b) with (wrap64 (a + b)).
  rewrite !add64_wrap_l, !sub64_wrap_l.
  unfold diet_score_spec. f_equal. ring.
Qed.

Lemma diet_score_spec64_wrap a b c d e f g h :
  diet_score_spec64 a b c d e f g h = wrap64 (diet_score_spec a b c d e f g h).
Proof.
  unfold diet_score_spec64.
  change (add64 a b) with (wrap64 (a + b)).
  change (add64 f g) with (wrap64 (f + g)).
  rewrite !add64_wrap_l, sub64_wrap_l, wrap64_idemp_r.
  reflexivity.
Qed.

(** On integer cells the chain of lines 78-82 is the formula of the data
    model, wrapped to int64. *)
Lemma diet_score_chain_int a b c d e f g h :
  diet_score_chain (IntCell a) (IntCell b) (IntCell c) (IntCell d)
                   (IntCell e) (IntCell f) (IntCell g) (IntCell h)
  = IntCell (wrap64 (diet_score_spec a b c d e f g h)).
Proof. unfold diet_score_chain. cbn [cell_sub cell_add]. by rewrite diet_chain_wrap. Qed.

Lemma diet_score_grouped_int a b c d e f g h :
  diet_score_grouped (IntCell a) (IntCell b) (IntCell c) (IntCell d)
                     (IntCell e) (IntCell f) (IntCell g) (IntCell h)
  = IntCell (diet_score_spec64 a b c d e f g h).
Proof. unfold diet_score_grouped, diet_score_spec64. cbn [cell_sub cell_add]. done. Qed.

Lemma series_lookup_floats s i a :
  series_lookup s i = Some a → floats s !! i = Some (cell_float a).
Proof.
  destruct s as [l|l]; cbn [series_lookup floats]; intros H;
    apply fmap_Some in H as (x & Hx & ->); cbn [cell_float].
  - by rewrite list_lookup_fmap, Hx.
  - exact Hx.
Qed.

Lemma series_add_lookup s t i a b :
  series_lookup s i = Some a → series_lookup t i = Some b →
  series_lookup (series_add s t) i = Some (cell_add a b).
Proof.
  intros Ha Hb.
  pose proof (series_lookup_floats _ _ _ Ha) as Fa.
  pose proof (series_lookup_floats _ _ _ Hb) as Fb.
  destruct s as [l|l], t as [k|k]; cbn [series_add series_lookup] in *;
    try (rewrite lookup_zip_with, Fa, Fb;
         apply fmap_Some in Ha as (x & _ & ->); apply fmap_Some in Hb as (y & _ & ->);
         reflexivity).
  apply fmap_Some in Ha as (x & Hx & ->). apply fmap_Some in Hb as (y & Hy & ->).
  by rewrite lookup_zip_with, Hx, Hy.
Qed.

Lemma series_sub_lookup s t i a b :
  series_lookup s i = Some a → series_lookup t i = Some b →
  series_lookup (series_sub s t) i = Some (cell_sub a b).
Proof.
  intros Ha Hb.
  pose proof (series_lookup_floats _ _ _ Ha) as Fa.
  pose proof (series_lookup_floats _ _ _ Hb) as Fb.
  destruct s as [l|l], t as [k|k]; cbn [series_sub series_lookup] in *;
    try (rewrite lookup_zip_with, Fa, Fb;
         apply fmap_Some in Ha as (x & _ & ->); apply fmap_Some in Hb as (y & _ & ->);
         reflexivity).
  apply fmap_Some in Ha as (x & Hx & ->). apply fmap_Some in Hb as (y & Hy & ->).
  by rewrite lookup_zip_with, Hx, Hy.
Qed.

Lemma floats_length s : length (floats s) = series_length s.
Proof. destruct s; cbn; [apply length_fmap|done]. Qed.

Lemma series_add_length s t n :
  series_length s = n → series_length t = n → series_length (series_add s t) = n.
Proof.
  intros Hs Ht. pose proof (floats_length s). pose proof (floats_length t).
  destruct s, t; cbn [series_add series_length] in *; rewrite length_zip_with; lia.
Qed.

Lemma series_sub_length s t n :
  series_length s = n → series_length t = n → series_length (series_sub s t) = n.
Proof.
  intros Hs Ht. pose proof (floats_length s). pose proof (floats_length t).
  destruct s, t; cbn [series_sub series_length] in *; rewrite length_zip_with; lia.
Qed.

Lemma getitem_Some (df : DataFrame) col s : df !! col = Some s → getitem df col = Ok s.
Proof. intros H. unfold getitem. by rewrite H. Qed.

Lemma cell_Some (df : DataFrame) col s i :
  df !! col = Some s → cell df col i = series_lookup s i.
Proof. intros H. unfold cell. by rewrite H. Qed.

(** A file that holds a table with at least one column is read as it is. *)
Lemma read_csv_Csv (fs : FileSystem) path (df : DataFrame) col s :
  fs !! path = Some (Csv df) → df !! col = Some s → read_csv fs path = Ok df.
Proof.
  intros Hfs Hcol. unfold read_csv. rewrite Hfs. case_decide as Hsize; [|done].
  apply map_size_empty_iff in Hsize. subst df. unfold DataFrame in *.
  by rewrite lookup_empty in Hcol.
Qed.

(** A load that finds the file and the eight contributors. *)
Lemma load_and_prepare_body_present fs (df : DataFrame) s1 s2 s3 s4 s5 s6 s7 s8 :
  fs !! data_path = Some (Csv df) →
  df !! "leafy_greens" = Some s1 → df !! "berries" = Some s2 →
  df !! "fish" = Some s3 → df !! "nuts" = Some s4 →
  df !! "olive_oil" = Some s5 → df !! "red_meat" = Some s6 →
  df !! "sweets" = Some s7 → df !! "fast_food" = Some s8 →
  load_and_prepare_body fs
  = Ok (<["diet_score" :=
           series_sub (series_sub (series_sub
             (series_add (series_add (series_add (series_add s1 s2) s3) s4) s5)
             s6) s7) s8]> df).
Proof.
  intros Hfs H1 H2 H3 H4 H5 H6 H7 H8.
  unfold load_and_prepare_body. rewrite (read_csv_Csv _ _ _ _ _ Hfs H1). cbn [rbind].
  rewrite (getitem_Some _ _ _ H1), (getitem_Some _ _ _ H2), (getitem_Some _ _ _ H3),
    (getitem_Some _ _ _ H4), (getitem_Some _ _ _ H5), (getitem_Some _ _ _ H6),
    (getitem_Some _ _ _ H7), (getitem_Some _ _ _ H8).
  reflexivity.
Qed.

(** One cell of the column that lines 78-82 compute. *)
Lemma diet_series_lookup (s1 s2 s3 s4 s5 s6 s7 s8 : Series) i a b c d e f g h :
  series_lookup s1 i = Some a → series_lookup s2 i = Some b →
  series_lookup s3 i = Some c → series_lookup s4 i = Some d →
  series_lookup s5 i = Some e → series_lookup s6 i = Some f →
  series_lookup s7 i = Some g → series_lookup s8 i = Some h →
  series_lookup (series_sub (series_sub (series_sub
    (series_add (series_add (series_add (series_add s1 s2) s3) s4) s5) s6) s7) s8) i
  = Some (diet_score_chain a b c d e f g h).
Proof.
  intros Ha Hb Hc Hd He Hf Hg Hh. unfold diet_score_chain.
  repeat first [apply series_sub_lookup | apply series_add_lookup]; assumption.
Qed.

Lemma diet_series_length (s1 s2 s3 s4 s5 s6 s7 s8 : Series) n :
  series_length s1 = n → series_length s2 = n → series_length s3 = n →
  series_length s4 = n → series_length s5 = n → series_length s6 = n →
  series_length s7 = n → series_length s8 = n →
  series_length (series_sub (series_sub (series_sub
    (series_add (series_add (series_add (series_add s1 s2) s3) s4) s5) s6) s7) s8) = n.
Proof.
  intros. repeat first [apply series_sub_length | apply series_add_length]; assumption.
Qed.

(** C2, the claim as written fails on decimal cells: for the row with 0.1
    serving of leafy greens, red meat, sweets and fast food the loaded
    [diet_score] is -0.2, the left-to-right result in binary64, while the
    sum of the five minus the sum of the three is -0.20000000000000004. *)
Lemma decimal_row_not_grouped :
  ∃ df', load_and_prepare_body decimal_files = Ok df'
         ∧ cell df' "diet_score" 0
           = Some (FloatCell (S754_finite true 7205759403792794 (-55)))
         ∧ diet_score_grouped (FloatCell (Float.ratio 1 10)) (IntCell 0) (IntCell 0)
             (IntCell 0) (IntCell 0) (FloatCell (Float.ratio 1 10))
             (FloatCell (Float.ratio 1 10)) (FloatCell (Float.ratio 1 10))
           = FloatCell (S754_finite true 7205759403792795 (-55))
         ∧ cell df' "diet_score" 0
           ≠ Some (diet_score_grouped (FloatCell (Float.ratio 1 10)) (IntCell 0) (IntCell 0)
                     (IntCell 0) (IntCell 0) (FloatCell (Float.ratio 1 10))
                     (FloatCell (Float.ratio 1 10)) (FloatCell (Float.ratio 1 10))).
Proof.
  eexists. split.
  { exact (load_and_prepare_body_present decimal_files decimal_table _ _ _ _ _ _ _ _
             eq_refl eq_refl eq_refl eq_refl eq_refl eq_refl eq_refl eq_refl eq_refl). }
  assert (Hc : ∀ s, cell (<["diet_score" := s]> decimal_table) "diet_score" 0
                    = series_lookup s 0).
  { intros s. unfold cell, DataFrame. by rewrite lookup_insert_eq. }
  rewrite !Hc. split; [vm_compute; reflexivity|]. split; [vm_compute; reflexivity|].
  vm_compute. discriminate.
Qed.

(** C2, amended. For every row of a loaded table, the derived [diet_score]
    is leafy_greens + berries + fish + nuts + olive_oil - red_meat - sweets
    - fast_food evaluated from left to right in the arithmetic of the
    columns: the column that [load_and_prepare] adds has one cell per row
    and that cell is the chain on the row's cells.  On integer cells the
    chain is the sum of the five minus the sum of the three in int64, and
    the formula on the integers whenever that value is an int64.  The row
    2, 1, 0, 1, 1 / 1, 0, 1 gets 3. *)
Theorem diet_score_formula (fs : FileSystem) (df : DataFrame) (n : nat) :
  fs !! data_path = Some (Csv df) →
  rectangular n df →
  Forall (λ col, is_Some (df !! col)) diet_columns →
  (∃ s, load_and_prepare_body fs = Ok (<["diet_score" := s]> df)
        ∧ series_length s = n
        ∧ ∀ i a b c d e f g h,
            cell df "leafy_greens" i = Some a → cell df "berries" i = Some b →
            cell df "fish" i = Some c → cell df "nuts" i = Some d →
            cell df "olive_oil" i = Some e → cell df "red_meat" i = Some f →
            cell df "sweets" i = Some g → cell df "fast_food" i = Some h →
            series_lookup s i = Some (diet_score_chain a b c d e f g h))
  ∧ (∀ a b c d e f g h : Z,
       diet_score_chain (IntCell a) (IntCell b) (IntCell c) (IntCell d)
                        (IntCell e) (IntCell f) (IntCell g) (IntCell h)
       = IntCell (diet_score_spec64 a b c d e f g h)
       ∧ (- 2 ^ 63 ≤ diet_score_spec a b c d e f g h < 2 ^ 63 →
          diet_score_chain (IntCell a) (IntCell b) (IntCell c) (IntCell d)
                           (IntCell e) (IntCell f) (IntCell g) (IntCell h)
          = IntCell (diet_score_spec a b c d e f g h)))
  ∧ diet_score_chain (IntCell 2) (IntCell 1) (IntCell 0) (IntCell 1)
                     (IntCell 1) (IntCell 1) (IntCell 0) (IntCell 1)
    = IntCell 3.
Proof.
  intros Hfs Hrect Hcols. split; [|split; [|reflexivity]].
  - unfold diet_columns in Hcols.
    apply Forall_cons in Hcols as [[s1 H1] Hcols].
    apply Forall_cons in Hcols as [[s2 H2] Hcols].
    apply Forall_cons in Hcols as [[s3 H3] Hcols].
    apply Forall_cons in Hcols as [[s4 H4] Hcols].
    apply Forall_cons in Hcols as [[s5 H5] Hcols].
    apply Forall_cons in Hcols as [[s6 H6] Hcols].
    apply Forall_cons in Hcols as [[s7 H7] Hcols].
    apply Forall_cons in Hcols as [[s8 H8] _].
    eexists. split; [|split].
    + exact (load_and_prepare_body_present _ _ _ _ _ _ _ _ _ _
               Hfs H1 H2 H3 H4 H5 H6 H7 H8).
    + apply diet_series_length; eapply Hrect; eassumption.
    + intros i a b c d e f g h Ha Hb Hc Hd He Hf Hg Hh.
      rewrite (cell_Some _ _ _ _ H1) in Ha. rewrite (cell_Some _ _ _ _ H2) in Hb.
      rewrite (cell_Some _ _ _ _ H3) in Hc. rewrite (cell_Some _ _ _ _ H4) in Hd.
      rewrite (cell_Some _ _ _ _ H5) in He. rewrite (cell_Some _ _ _ _ H6) in Hf.
      rewrite (cell_Some _ _ _ _ H7) in Hg. rewrite (cell_Some _ _ _ _ H8) in Hh.
      by apply diet_series_lookup.
  - intros a b c d e f g h. rewrite diet_score_chain_int. split.
    + by rewrite diet_score_spec64_wrap.
    + intros Hr. by rewrite wrap64_in_range.
Qed.

Lemma diet_score_formula_witness :
  ∃ s, load_and_prepare_body sample_files = Ok (<["diet_score" := s]> sample_table)
       ∧ series_length s = 3%nat
       ∧ series_lookup s 0 = Some (IntCell 3).
Proof.
  assert (H1 : sample_files !! data_path = Some (Csv sample_table)) by reflexivity.
  assert (H2 : rectangular 3 sample_table).
  { intros c s H. apply elem_of_list_to_map_2 in H.
    repeat (apply elem_of_cons in H as [H|H]; [by injection H as -> ->|]).
    by apply elem_of_nil in H. }
  assert (H3 : Forall (λ col, is_Some (sample_table !! col)) diet_columns).
  { unfold diet_columns.
    repeat (apply Forall_cons; split; [eexists; reflexivity|]).
    apply Forall_nil_2. }
  destruct (diet_score_formula sample_files sample_table 3 H1 H2 H3)
    as [(s & Hload & Hlen & Hrow) _].
  exists s. split; [exact Hload|]. split; [exact Hlen|].
  exact (Hrow 0%nat (IntCell 2) (IntCell 1) (IntCell 0) (IntCell 1) (IntCell 1)
           (IntCell 1) (IntCell 0) (IntCell 1)
           eq_refl eq_refl eq_refl eq_refl eq_refl eq_refl eq_refl eq_refl).
Defined.

(** ** The script as a whole *)

(** Some answer counts as healthy or unhealthy exactly when some delta is
    not 0. *)
Lemma counts_zero ds : Forall (λ d, d = 0) ds → count_pos ds + count_neg ds = 0.
Proof.
  intros H. rewrite count_pos_nonpos, count_neg_nonneg; [done| |];
    (eapply Forall_impl; [exact H|]; cbn; lia).
Qed.

Lemma counts_not_zero ds : Exists (λ d, d ≠ 0) ds → count_pos ds + count_neg ds ≠ 0.
Proof.
  unfold count_pos, count_neg.
  induction 1 as [d ds Hd|d ds _ IH]; rewrite !filter_cons;
    repeat case_decide; cbn [length]; lia.
Qed.

Lemma deltas_zero_or_not ds :
  Forall (λ d : Z, d = 0) ds ∨ Exists (λ d : Z, d ≠ 0) ds.
Proof.
  induction ds as [|d ds [IH|IH]].
  - left. constructor.
  - destruct (decide (d = 0)) as [->|Hd].
    + left. by constructor.
    + right. by apply Exists_cons_hd.
  - right. by apply Exists_cons_tl.
Qed.

Lemma zero_not_both ds :
  Forall (λ d : Z, d = 0) ds → Exists (λ d : Z, d ≠ 0) ds → False.
Proof. intros HF HE. pose proof (counts_zero _ HF). by apply counts_not_zero in HE. Qed.

Section ScriptFacts.

Context {Matrix Fit : Type}.
Variable corr : list Series → Matrix.
Variable linregress : Series → Series → res Fit.
Variable regression_text : Fit → string.
Variable pearson_text : Fit → string.

Abbreviation run := (script corr linregress regression_text pearson_text).
Abbreviation analysis := (analysis_section corr linregress regression_text pearson_text).

(** The pie is drawn when the counts are not both 0. *)
Lemma ax_pie_drawn h u :
  0 ≤ h → 0 ≤ u → h + u ≠ 0 → ax_pie (Matrix:=Matrix) (Fit:=Fit) h u = Ok (Pie h u).
Proof.
  intros Hh Hu Hsum. unfold ax_pie.
  destruct (Z.ltb_spec h 0); [lia|]. destruct (Z.ltb_spec u 0); [lia|].
  destruct (Z.eqb_spec (h + u) 0); [lia|]. reflexivity.
Qed.

(** The first part of a run when some answer is counted: the quiz
    displays, and no exception. *)
Lemma quiz_part g0 ui :
  Exists (λ d, d ≠ 0) (deltas ui) →
  ∃ g r, quiz_result g0 ui = Ok r
         ∧ mbind (Matrix:=Matrix) (Fit:=Fit) intro (λ _, quiz_section g0 ui)
           = (quiz_displays r, Ok (g, r)).
Proof.
  intros Hnz. destruct (quiz_returns g0 ui) as [g Hq]. eexists g, _. split.
  - unfold quiz_result. rewrite Hq. reflexivity.
  - unfold quiz_section. rewrite Hq. cbn [mbind lift emit snd healthy_count unhealthy_count].
    destruct (count_bounds (deltas ui)) as (Hp & Hn & _).
    rewrite (ax_pie_drawn _ _ Hp Hn (counts_not_zero _ Hnz)). reflexivity.
Qed.

(** The first part of a run when no answer is counted: the pie of line 65
    raises after the three result lines. *)
Lemma quiz_part_raises g0 ui :
  Forall (λ d, d = 0) (deltas ui) →
  mbind (Matrix:=Matrix) (Fit:=Fit) intro (λ _, quiz_section g0 ui)
  = (take 7 (quiz_displays (mkQuizResult 0 0 0 0)), Raise ValueError).
Proof.
  intros Hz. destruct (quiz_returns g0 ui) as [g Hq].
  assert (Hp : count_pos (deltas ui) = 0).
  { apply count_pos_nonpos. eapply Forall_impl; [exact Hz|]. cbn. lia. }
  assert (Hn : count_neg (deltas ui) = 0).
  { apply count_neg_nonneg. eapply Forall_impl; [exact Hz|]. cbn. lia. }
  unfold quiz_section. rewrite Hq, (sumZ_zero _ Hz), Hp, Hn. reflexivity.
Qed.

Lemma run_quiz_raises w :
  Forall (λ d, d = 0) (deltas (answers w)) →
  run w = mkRun (take 7 (quiz_displays (mkQuizResult 0 0 0 0))) (Raise ValueError) (cached w).
Proof. intros Hz. unfold script. by rewrite (quiz_part_raises _ _ Hz). Qed.

(** The quiz part of a page is decided by the selections. *)
Lemma run_page w :
  ∃ r, quiz_result (globals w) (answers w) = Ok r
       ∧ ((Exists (λ d, d ≠ 0) (deltas (answers w))
           ∧ quiz_page (run w) = quiz_displays r)
          ∨ (Forall (λ d, d = 0) (deltas (answers w))
             ∧ quiz_page (run w) = take 7 (quiz_displays (mkQuizResult 0 0 0 0)))).
Proof.
  destruct (deltas_zero_or_not (deltas (answers w))) as [Hz|Hnz].
  - rewrite quiz_result_returns. eexists. split; [reflexivity|]. right.
    split; [exact Hz|]. by rewrite (run_quiz_raises _ Hz).
  - destruct (quiz_part (globals w) (answers w) Hnz) as (g & r & Hr & Hq).
    exists r. split; [exact Hr|]. left. split; [exact Hnz|].
    unfold quiz_page, script. rewrite Hq.
    destruct (analysis (cached w) (files w)) as [cache' an].
    destruct (mbind an (λ _, references)) as [out' st]. reflexivity.
Qed.

(** C7. The quiz is a function of the answer set alone: two runs on the
    same selections return the same total score, counts and percentage and
    display the same quiz part, whatever the counters held before and
    whatever the cache and the files are. *)
Theorem quiz_deterministic g1 g2 c1 c2 fs1 fs2 ui :
  quiz_result g1 ui = quiz_result g2 ui
  ∧ quiz_page (run (mkWorld g1 c1 ui fs1)) = quiz_page (run (mkWorld g2 c2 ui fs2)).
Proof.
  split; [reflexivity|].
  destruct (run_page (mkWorld g1 c1 ui fs1)) as (r1 & Hr1 & Hp1).
  destruct (run_page (mkWorld g2 c2 ui fs2)) as (r2 & Hr2 & Hp2).
  cbn [globals answers] in *.
  rewrite quiz_result_returns in Hr1, Hr2.
  destruct Hp1 as [[H1 ->]|[H1 ->]], Hp2 as [[H2 ->]|[H2 ->]];
    first [congruence | by destruct (zero_not_both _ H1 H2)
           | by destruct (zero_not_both _ H2 H1)].
Qed.

(** C3, amended. When the file is absent, no earlier run has left a loaded
    table in the cache and at least one answer counts as healthy or
    unhealthy, [load_and_prepare] raises [FileNotFoundError], the run ends
    without an exception, and the page is the quiz part followed by the
    section header, the error message and the references, with no table
    and no figure of the analysis; the quiz part and the quiz result are
    those of any run on the same selections, with or without the file. *)
Theorem absent_dataset_cold_cache w :
  cached w = None →
  files w !! data_path = None →
  Exists (λ d, d ≠ 0) (deltas (answers w)) →
  load_and_prepare (cached w) (files w) = (None, Raise (FileNotFoundError data_path))
  ∧ status (run w) = Ok tt
  ∧ cache_after (run w) = None
  ∧ page (run w)
    = quiz_page (run w)
      ++ [StHeader "2. Sample Data & Analysis"; StError not_found_message] ++ references.1
  ∧ ∃ r, quiz_result (globals w) (answers w) = Ok r
         ∧ quiz_page (run w) = quiz_displays r
         ∧ ∀ g c fs, quiz_result g (answers w) = Ok r
                     ∧ quiz_page (run (mkWorld g c (answers w) fs)) = quiz_displays r.
Proof.
  intros Hc Hf Hnz.
  assert (Hload : load_and_prepare (cached w) (files w)
                  = (None, Raise (FileNotFoundError data_path))).
  { rewrite Hc. unfold load_and_prepare, load_and_prepare_body, read_csv.
    rewrite Hf. reflexivity. }
  destruct (quiz_part (globals w) (answers w) Hnz) as (g & r & Hr & Hq).
  assert (Hrun : run w
                 = mkRun (quiz_displays r
                          ++ [StHeader "2. Sample Data & Analysis"; StError not_found_message]
                          ++ references.1) (Ok tt) None).
  { unfold script. rewrite Hq. unfold analysis_section. rewrite Hload. reflexivity. }
  split; [exact Hload|]. rewrite Hrun. cbn [status cache_after page].
  split; [reflexivity|]. split; [reflexivity|]. split; [reflexivity|].
  exists r. split; [exact Hr|]. split; [reflexivity|].
  intros g' c fs.
  destruct (run_page (mkWorld g' c (answers w) fs)) as (r' & Hr' & Hp').
  cbn [globals answers] in Hr', Hp'.
  assert (r' = r) as ->.
  { rewrite quiz_result_returns in Hr, Hr'. congruence. }
  split; [exact Hr'|].
  destruct Hp' as [[_ Hp']|[Hz _]]; [exact Hp'|by destruct (zero_not_both _ Hz Hnz)].
Qed.

End ScriptFacts.

Lemma absent_dataset_cold_cache_witness :
  files cold_absent !! data_path = None
  ∧ status (stub_script cold_absent) = Ok tt
  ∧ errors (page (stub_script cold_absent)) = [not_found_message]
  ∧ tables (page (stub_script cold_absent)) = [].
Proof.
  assert (Hnz : Exists (λ d, d ≠ 0) (deltas (answers cold_absent))).
  { vm_compute. apply Exists_cons_hd. discriminate. }
  pose proof (absent_dataset_cold_cache (λ _, tt) (λ _ _, Ok tt) (λ _, "regression")
                (λ _, "pearson") cold_absent eq_refl eq_refl Hnz)
    as (_ & Hst & _ & Hpage & _).
  fold stub_script in Hst, Hpage.
  split; [reflexivity|]. split; [exact Hst|].
  rewrite Hpage. split; vm_compute; reflexivity.
Defined.

(** C3, the claim as written fails in two ways.  Once a table is cached: a
    run that finds the file leaves the loaded table in the cache, and the
    next run, with the file gone, raises nothing, shows no error message
    and displays the same page, analysis included.  And when no answer is
    counted: with the file absent and nothing cached, the run ends with the
    [ValueError] of the pie after seven displays, before the load is tried,
    and shows no error message. *)
Lemma warm_cache_serves_missing_file :
  (∅ : FileSystem) !! data_path = None
  ∧ (∃ df, cache_after first_run = Some df
           ∧ load_and_prepare (Some df) ∅ = (Some df, Ok df))
  ∧ status second_run = Ok tt
  ∧ errors (page second_run) = []
  ∧ length (tables (page second_run)) = 1%nat
  ∧ page second_run = page first_run
  ∧ status zero_run = Raise ValueError
  ∧ errors (page zero_run) = []
  ∧ length (page zero_run) = 7%nat.
Proof.
  split; [reflexivity|]. split; [by eexists|].
  repeat split; vm_compute; reflexivity.
Qed.

(** ** Further facts on the quiz *)

Lemma mapping_get_range (l : list (string * Z)) ans lo hi :
  lo ≤ 0 ≤ hi → Forall (λ kv, lo ≤ kv.2 ≤ hi) l →
  lo ≤ mapping_get (dict l) ans 0 ≤ hi.
Proof.
  intros H0 Hl. destruct ans as [label|]; cbn; [|lia].
  destruct (dict l !! label) as [v|] eqn:Hv; cbn; [|lia].
  apply elem_of_list_to_map_2 in Hv.
  rewrite Forall_forall in Hl. exact (Hl _ Hv).
Qed.

(** The eight deltas and the range the table of questions leaves each. *)
Lemma deltas_shape ui :
  ∃ d0 d1 d2 d3 d4 d5 d6 d7,
    deltas ui = [d0; d1; d2; d3; d4; d5; d6; d7]
    ∧ 0 ≤ d0 ≤ 3 ∧ 0 ≤ d1 ≤ 3 ∧ 0 ≤ d2 ≤ 3 ∧ 0 ≤ d3 ≤ 3
    ∧ 0 ≤ d4 ≤ 2 ∧ 0 ≤ d5 ≤ 3 ∧ -2 ≤ d6 ≤ 0 ∧ -2 ≤ d7 ≤ 0.
Proof.
  do 8 eexists. split; [reflexivity|].
  repeat match goal with
         | |- (_ ≤ _ ≤ _) ∧ _ => split
         end;
    (apply mapping_get_range; [lia | repeat constructor; cbn; lia]).
Qed.

Lemma count_pos_cons d ds :
  count_pos (d :: ds) = (if bool_decide (0 < d) then 1 else 0) + count_pos ds.
Proof.
  unfold count_pos. rewrite filter_cons.
  case_bool_decide; case_decide; cbn [length]; lia.
Qed.

Lemma count_neg_cons d ds :
  count_neg (d :: ds) = (if bool_decide (d < 0) then 1 else 0) + count_neg ds.
Proof.
  unfold count_neg. rewrite filter_cons.
  case_bool_decide; case_decide; cbn [length]; lia.
Qed.

Lemma sumZ_cons d ds : sumZ (d :: ds) = d + sumZ ds.
Proof. reflexivity. Qed.

Lemma count_neg_app ds1 ds2 : count_neg (ds1 ++ ds2) = count_neg ds1 + count_neg ds2.
Proof. unfold count_neg. rewrite filter_app, length_app. lia. Qed.

(** A sum of deltas between -2 and 3 lies between what the counts allow. *)
Lemma sum_between_counts ds :
  Forall (λ d, -2 ≤ d ≤ 3) ds →
  count_pos ds - 2 * count_neg ds ≤ sumZ ds ≤ 3 * count_pos ds - count_neg ds.
Proof.
  induction 1 as [|d ds Hd _ IH]; [done|].
  rewrite sumZ_cons, count_pos_cons, count_neg_cons.
  repeat case_bool_decide; lia.
Qed.

(** The first six deltas are never negative, the last two never positive. *)
Lemma deltas_split ui :
  ∃ l6 l2, deltas ui = l6 ++ l2
           ∧ length l6 = 6%nat ∧ length l2 = 2%nat
           ∧ Forall (λ d, 0 ≤ d) l6 ∧ Forall (λ d, d ≤ 0) l2.
Proof.
  destruct (deltas_shape ui) as (d0 & d1 & d2 & d3 & d4 & d5 & d6 & d7 & -> & H).
  exists [d0; d1; d2; d3; d4; d5], [d6; d7].
  split; [reflexivity|]. split; [reflexivity|]. split; [reflexivity|].
  split; repeat constructor; lia.
Qed.

(** X1. Whatever is selected, the total score lies between -4 and 17; the
    untouched page, where every widget shows its first option, scores -4,
    and the healthiest selections score 17. *)
Theorem score_range g0 ui :
  (∃ r, quiz_result g0 ui = Ok r ∧ -4 ≤ total_score r ≤ 17)
  ∧ (∃ r, quiz_result g0 ∅ = Ok r ∧ total_score r = -4)
  ∧ (∃ r, quiz_result g0 best = Ok r ∧ total_score r = 17).
Proof.
  split; [|split; eexists; (split; [vm_compute; reflexivity|reflexivity])].
  rewrite quiz_result_returns. eexists. split; [reflexivity|].
  cbn [total_score].
  destruct (deltas_shape ui) as (d0 & d1 & d2 & d3 & d4 & d5 & d6 & d7 & -> & H).
  rewrite !sumZ_cons. change (sumZ []) with 0. lia.
Qed.

(** X2. At most six answers count as healthy and at most two as
    unhealthy. *)
Theorem count_caps g0 ui :
  ∃ r, quiz_result g0 ui = Ok r
       ∧ 0 ≤ healthy_count r ≤ 6 ∧ 0 ≤ unhealthy_count r ≤ 2.
Proof.
  rewrite quiz_result_returns. eexists. split; [reflexivity|].
  cbn [healthy_count unhealthy_count].
  destruct (deltas_split ui) as (l6 & l2 & -> & Hl6 & Hl2 & Hpos & Hneg).
  rewrite count_pos_app, count_neg_app.
  rewrite (count_pos_nonpos l2), (count_neg_nonneg l6) by done.
  destruct (count_bounds l6) as (? & ? & ?). destruct (count_bounds l2) as (? & ? & ?).
  lia.
Qed.

(** X3. The total score is tied to the two counts: every healthy answer adds
    between 1 and 3, every unhealthy answer takes 1 or 2. *)
Theorem score_between_counts g0 ui :
  ∃ r, quiz_result g0 ui = Ok r
       ∧ healthy_count r - 2 * unhealthy_count r ≤ total_score r
       ∧ total_score r ≤ 3 * healthy_count r - unhealthy_count r.
Proof.
  rewrite quiz_result_returns. eexists. split; [reflexivity|].
  cbn [total_score healthy_count unhealthy_count].
  apply sum_between_counts.
  destruct (deltas_shape ui) as (d0 & d1 & d2 & d3 & d4 & d5 & d6 & d7 & -> & H).
  repeat constructor; lia.
Qed.

(** X4. What the percentage tells: it is 0 exactly when no answer is
    healthy, 100 exactly when some answer is healthy and none unhealthy, and
    between 33 and 85 when both kinds occur. *)
Theorem percent_meaning g0 ui :
  ∃ r, quiz_result g0 ui = Ok r
       ∧ (percent_healthy r = 0 ↔ healthy_count r = 0)
       ∧ (percent_healthy r = 100 ↔ 0 < healthy_count r ∧ unhealthy_count r = 0)
       ∧ (0 < healthy_count r → 0 < unhealthy_count r → 33 ≤ percent_healthy r ≤ 85).
Proof.
  rewrite quiz_result_returns. eexists. split; [reflexivity|].
  cbn [percent_healthy healthy_count unhealthy_count].
  destruct (deltas_split ui) as (l6 & l2 & -> & Hl6 & Hl2 & Hpos & Hneg).
  rewrite count_pos_app, count_neg_app.
  rewrite (count_pos_nonpos l2), (count_neg_nonneg l6) by done.
  destruct (count_bounds l6) as (Hh & Hh' & Hhle).
  destruct (count_bounds l2) as (Hu' & Hu & Hule).
  rewrite Z.add_0_r, Z.add_0_l.
  set (h := count_pos l6) in *. set (u := count_neg l2) in *.
  assert (Hhc : h = 0 ∨ h = 1 ∨ h = 2 ∨ h = 3 ∨ h = 4 ∨ h = 5 ∨ h = 6) by lia.
  assert (Huc : u = 0 ∨ u = 1 ∨ u = 2) by lia.
  clearbody h u.
  destruct Hhc as [->|[->|[->|[->|[->|[->| ->]]]]]];
    destruct Huc as [->|[->| ->]]; vm_compute; intuition congruence.
Qed.

(** X5. The floating-point percentage is the exact rounded-down percentage
    for every pair of counts with a total up to 49; with 29 healthy answers
    out of 50 it is 57, one below the exact 58. *)
Theorem percent_exact_up_to_49 h u :
  0 ≤ h → 0 ≤ u → h + u ≤ 49 →
  percent_healthy_of h u = Ok (percent_exact h u)
  ∧ percent_healthy_of 29 21 = Ok 57
  ∧ percent_exact 29 21 = 58.
Proof.
  intros Hh Hu Hsum. split; [|split; vm_compute; reflexivity].
  assert (T : forallb (λ h, forallb (λ u, (49 <? h + u) || percent_agrees h u)
                              (seqZ 0 50)) (seqZ 0 50) = true).
  { vm_compute. reflexivity. }
  rewrite forallb_forall in T.
  assert (Hin : ∀ x, 0 ≤ x < 50 → In x (seqZ 0 50)).
  { intros x Hx. apply list_elem_of_In, elem_of_seqZ. lia. }
  specialize (T h (Hin h ltac:(lia))). rewrite forallb_forall in T.
  specialize (T u (Hin u ltac:(lia))).
  apply orb_true_iff in T as [T|T].
  - apply Z.ltb_lt in T. lia.
  - unfold percent_agrees in T.
    destruct (percent_healthy_of h u) as [p|e]; [|done].
    apply Z.eqb_eq in T. by subst.
Qed.

Lemma percent_exact_up_to_49_witness :
  percent_healthy_of 3 2 = Ok 60.
Proof.
  exact (proj1 (percent_exact_up_to_49 3 2 ltac:(lia) ltac:(lia) ltac:(lia))).
Defined.

(** Distinct questions read distinct widget keys. *)
Lemma question_key_inj i j : question_key i = question_key j → i = j.
Proof.
  unfold question_key. intros H.
  apply (inj (String.append "q")) in H. by apply (inj pretty) in H.
Qed.

Lemma delta_at_agree ui ui' idx q :
  ui !! question_key idx = ui' !! question_key idx →
  delta_at ui idx q = delta_at ui' idx q.
Proof.
  intros H. destruct q as [[text opts] mp]. unfold delta_at, selectbox. by rewrite H.
Qed.

(** X6. Answering one question changes the contribution of that question
    alone: with one of its options stored as the selection of question [i],
    the delta of question [i] is the mapping's entry for that option, 0
    when it has none, and every other delta is as before. *)
Theorem answer_one_question ui i label (q : Question) :
  questions !! i = Some q →
  label ∈ q.1.2 →
  deltas (<[question_key i := label]> ui) !! i = Some (default 0 (q.2 !! label))
  ∧ ∀ k, k ≠ i → deltas (<[question_key i := label]> ui) !! k = deltas ui !! k.
Proof.
  intros Hq Hopt. unfold deltas. split.
  - rewrite deltas_from_lookup, Hq.
    change (Some (delta_at (<[question_key i := label]> ui) i q)
            = Some (default 0 (q.2 !! label))).
    f_equal. destruct q as [[text opts] mp]. cbn [fst snd] in Hopt.
    unfold delta_at, selectbox, AnswerSet.
    rewrite lookup_insert_eq. by rewrite decide_True.
  - intros k Hk. rewrite !deltas_from_lookup.
    destruct (questions !! k) as [q'|]; [|done].
    change (Some (delta_at (<[question_key i := label]> ui) k q')
            = Some (delta_at ui k q')).
    f_equal. apply delta_at_agree. unfold AnswerSet. rewrite lookup_insert_ne; [done|].
    intros H. apply question_key_inj in H. congruence.
Qed.

Lemma answer_one_question_witness :
  deltas (<[question_key 4 := "Daily"]> neutral) !! 4%nat = Some 2.
Proof.
  refine (proj1 (answer_one_question neutral 4 "Daily"
                   ("Use of olive oil daily", ["Never";"Sometimes";"Daily"],
                    dict [("Sometimes",1);("Daily",2)]) eq_refl _)).
  cbn [fst snd]. rewrite !elem_of_cons. tauto.
Defined.

(** A stored label that is not an option of its question counts as the
    first option: on the red-meat question that is "5+", so -2. *)
Lemma stored_non_option ui i label (q : Question) :
  questions !! i = Some q →
  label ∉ q.1.2 →
  deltas (<[question_key i := label]> ui) !! i = Some (mapping_get q.2 (head q.1.2) 0).
Proof.
  intros Hq Hopt. unfold deltas. rewrite deltas_from_lookup, Hq.
  change (Some (delta_at (<[question_key i := label]> ui) i q)
          = Some (mapping_get q.2 (head q.1.2) 0)).
  f_equal. destruct q as [[text opts] mp]. cbn [fst snd] in *.
  unfold delta_at, selectbox, AnswerSet.
  rewrite lookup_insert_eq. by rewrite decide_False.
Qed.

Lemma stray_counts_as_first_option : deltas stray !! 6%nat = Some (-2).
Proof. reflexivity. Qed.

(** X7. Only the selections stored under the keys q0 to q7 matter: two
    answer sets that agree on them give the same result. *)
Theorem only_question_keys_matter g0 g0' ui ui' :
  (∀ idx, (idx < 8)%nat → ui !! question_key idx = ui' !! question_key idx) →
  quiz_result g0 ui = quiz_result g0' ui'.
Proof.
  intros H. rewrite !quiz_result_returns.
  assert (Hd : deltas ui = deltas ui'); [|by rewrite Hd].
  apply list_eq. intros k. unfold deltas. rewrite !deltas_from_lookup.
  destruct (questions !! k) as [q|] eqn:Hq; [|done].
  change (Some (delta_at ui k q) = Some (delta_at ui' k q)).
  f_equal. apply delta_at_agree, H. apply lookup_lt_Some in Hq. exact Hq.
Qed.

Lemma only_question_keys_matter_witness :
  quiz_result (mkGlobals 0 0 0) best
  = quiz_result (mkGlobals 1 1 1) (<["sidebar" := "dark"]> best).
Proof.
  apply only_question_keys_matter. intros idx Hidx.
  unfold AnswerSet. rewrite lookup_insert_ne; [reflexivity|].
  unfold question_key. discriminate.
Defined.

(** X8. The loop adds to whatever the counters hold: started from [g] it
    ends at [g] plus what it yields from zero, so without the reset of
    lines 22-24 the counters of an earlier pass would carry over.  Each
    count grows by at most one per question. *)
Theorem ask_all_accumulates ui idx qs g :
  ask_all ui idx qs g
  = mkGlobals (score g + score (ask_all ui idx qs (mkGlobals 0 0 0)))
              (healthy g + healthy (ask_all ui idx qs (mkGlobals 0 0 0)))
              (unhealthy g + unhealthy (ask_all ui idx qs (mkGlobals 0 0 0)))
  ∧ 0 ≤ healthy (ask_all ui idx qs (mkGlobals 0 0 0))
  ∧ 0 ≤ unhealthy (ask_all ui idx qs (mkGlobals 0 0 0))
  ∧ healthy (ask_all ui idx qs (mkGlobals 0 0 0))
    + unhealthy (ask_all ui idx qs (mkGlobals 0 0 0)) ≤ Z.of_nat (length qs).
Proof.
  rewrite !ask_all_tally.
  destruct (tally_counts (deltas_from ui idx qs) g) as (Hs & Hh & Hu).
  destruct (tally_counts (deltas_from ui idx qs) (mkGlobals 0 0 0)) as (Hs0 & Hh0 & Hu0).
  destruct (count_bounds (deltas_from ui idx qs)) as (Hp & Hn & Hle).
  rewrite deltas_from_length in Hle. cbn [score healthy unhealthy] in Hs0, Hh0, Hu0.
  split; [|lia].
  destruct (tally (deltas_from ui idx qs) g) as [s h u].
  cbn [score healthy unhealthy] in Hs, Hh, Hu. f_equal; lia.
Qed.

(** ** Further facts on the load *)

Lemma getitem_None (df : DataFrame) col : df !! col = None → getitem df col = Raise (KeyError col).
Proof. intros H. unfold getitem. by rewrite H. Qed.

Lemma getitem_Ok_inv (df : DataFrame) col s : getitem df col = Ok s → df !! col = Some s.
Proof. unfold getitem. destruct (df !! col); congruence. Qed.

Lemma read_csv_nonempty (fs : FileSystem) path (df : DataFrame) :
  fs !! path = Some (Csv df) → df ≠ ∅ → read_csv fs path = Ok df.
Proof.
  intros Hfs Hne. unfold read_csv. rewrite Hfs. case_decide as Hsize; [|done].
  by apply map_size_empty_iff in Hsize.
Qed.

(** What a load that returns has read and built. *)
Lemma load_and_prepare_body_Ok fs df' :
  load_and_prepare_body fs = Ok df' →
  ∃ df s1 s2 s3 s4 s5 s6 s7 s8,
    fs !! data_path = Some (Csv df)
    ∧ df !! "leafy_greens" = Some s1 ∧ df !! "berries" = Some s2
    ∧ df !! "fish" = Some s3 ∧ df !! "nuts" = Some s4
    ∧ df !! "olive_oil" = Some s5 ∧ df !! "red_meat" = Some s6
    ∧ df !! "sweets" = Some s7 ∧ df !! "fast_food" = Some s8
    ∧ df' = <["diet_score" :=
               series_sub (series_sub (series_sub
                 (series_add (series_add (series_add (series_add s1 s2) s3) s4) s5)
                 s6) s7) s8]> df.
Proof.
  unfold load_and_prepare_body, read_csv. intros H.
  destruct (fs !! data_path) as [[df|]|]; [|discriminate..].
  case_decide; [discriminate|]. cbn [rbind] in H.
  repeat match type of H with
         | context [getitem df ?c] =>
             let E := fresh "E" in
             destruct (getitem df c) as [?s|?e] eqn:E;
             [apply getitem_Ok_inv in E; cbn [rbind] in H | discriminate]
         end.
  injection H as <-. eauto 20.
Qed.

Lemma getitem_insert_ne (df : DataFrame) c c' x s :
  c' ≠ c → df !! c = Some s → getitem (<[c' := x]> df) c = Ok s.
Proof.
  intros Hne H. apply getitem_Some. unfold DataFrame in *.
  by rewrite lookup_insert_ne.
Qed.

(** Loading a table whose contributors are those of [df] builds the same
    [diet_score] column. *)
Lemma load_and_prepare_body_insert fs (df : DataFrame) x s1 s2 s3 s4 s5 s6 s7 s8 :
  df !! "leafy_greens" = Some s1 → df !! "berries" = Some s2 →
  df !! "fish" = Some s3 → df !! "nuts" = Some s4 →
  df !! "olive_oil" = Some s5 → df !! "red_meat" = Some s6 →
  df !! "sweets" = Some s7 → df !! "fast_food" = Some s8 →
  load_and_prepare_body (<[data_path := Csv (<["diet_score" := x]> df)]> fs)
  = Ok (<["diet_score" :=
           series_sub (series_sub (series_sub
             (series_add (series_add (series_add (series_add s1 s2) s3) s4) s5)
             s6) s7) s8]> df).
Proof.
  intros H1 H2 H3 H4 H5 H6 H7 H8.
  assert (Hfs : (<[data_path := Csv (<["diet_score" := x]> df)]> fs : FileSystem) !! data_path
                = Some (Csv (<["diet_score" := x]> df))).
  { unfold FileSystem. by rewrite lookup_insert_eq. }
  assert (G : ∀ c s, "diet_score" ≠ c → df !! c = Some s →
                     (<["diet_score" := x]> df : DataFrame) !! c = Some s).
  { intros c s Hne Hc. unfold DataFrame in *. by rewrite lookup_insert_ne. }
  rewrite (load_and_prepare_body_present _ _ _ _ _ _ _ _ _ _ Hfs
             (G "leafy_greens" _ ltac:(discriminate) H1) (G "berries" _ ltac:(discriminate) H2)
             (G "fish" _ ltac:(discriminate) H3) (G "nuts" _ ltac:(discriminate) H4)
             (G "olive_oil" _ ltac:(discriminate) H5) (G "red_meat" _ ltac:(discriminate) H6)
             (G "sweets" _ ltac:(discriminate) H7) (G "fast_food" _ ltac:(discriminate) H8)).
  f_equal. unfold DataFrame. by rewrite insert_insert_eq.
Qed.

(** X9. A load changes nothing but the [diet_score] column: every other
    column of the file comes back as it was read, a [diet_score] column
    already in the file is replaced whatever it holds, and loading the
    prepared table again gives the same table. *)
Theorem load_keeps_columns fs df' :
  load_and_prepare_body fs = Ok df' →
  ∃ df, fs !! data_path = Some (Csv df)
        ∧ (∀ col, col ≠ "diet_score" → df' !! col = df !! col)
        ∧ is_Some (df' !! "diet_score")
        ∧ (∀ x, load_and_prepare_body (<[data_path := Csv (<["diet_score" := x]> df)]> fs)
                = Ok df')
        ∧ load_and_prepare_body (<[data_path := Csv df']> fs) = Ok df'.
Proof.
  intros H.
  destruct (load_and_prepare_body_Ok _ _ H)
    as (df & s1 & s2 & s3 & s4 & s5 & s6 & s7 & s8
        & Hfs & H1 & H2 & H3 & H4 & H5 & H6 & H7 & H8 & ->).
  exists df. split; [exact Hfs|]. split; [|split; [|split]].
  - intros col Hcol. unfold DataFrame. by rewrite lookup_insert_ne.
  - unfold DataFrame. rewrite lookup_insert_eq. by eexists.
  - intros x. by apply load_and_prepare_body_insert.
  - by apply load_and_prepare_body_insert.
Qed.

Lemma load_keeps_columns_witness :
  ∃ df', load_and_prepare_body sample_files = Ok df'
         ∧ load_and_prepare_body (<[data_path := Csv df']> sample_files) = Ok df'.
Proof.
  pose proof (load_and_prepare_body_present sample_files sample_table
                _ _ _ _ _ _ _ _
                eq_refl eq_refl eq_refl eq_refl eq_refl eq_refl eq_refl eq_refl eq_refl) as E.
  destruct (load_keeps_columns sample_files _ E) as (df & _ & _ & _ & _ & Hagain).
  eexists. split; [exact E|exact Hagain].
Defined.

(** A file that lacks one of the eight contributors makes the load raise
    [KeyError] for the first one missing, in the order the formula reads
    them. *)
Lemma load_missing_column fs df pre col post :
  fs !! data_path = Some (Csv df) →
  df ≠ ∅ →
  diet_columns = pre ++ col :: post →
  Forall (λ c, is_Some (df !! c)) pre →
  df !! col = None →
  load_and_prepare_body fs = Raise (KeyError col)
  ∧ load_and_prepare None fs = (None, Raise (KeyError col)).
Proof.
  intros Hfs Hne Hsplit Hpre Hmiss.
  assert (Hbody : load_and_prepare_body fs = Raise (KeyError col)).
  { unfold load_and_prepare_body. rewrite (read_csv_nonempty _ _ _ Hfs Hne). cbn [rbind].
    unfold diet_columns in Hsplit.
    repeat (destruct pre as [|c pre]; cbn [app] in Hsplit;
            [ injection Hsplit as <- _;
              rewrite (getitem_None _ _ Hmiss); reflexivity
            | injection Hsplit as <- Hsplit;
              apply Forall_cons in Hpre as [[? Hs] Hpre];
              rewrite (getitem_Some _ _ _ Hs); cbn [rbind]; clear Hs ]).
    destruct pre; cbn [app] in Hsplit; discriminate. }
  split; [exact Hbody|]. unfold load_and_prepare. by rewrite Hbody.
Qed.

(** ** Further facts on a run *)

Section RunFacts.

Context {Matrix Fit : Type}.
Variable corr : list Series → Matrix.
Variable linregress : Series → Series → res Fit.
Variable regression_text : Fit → string.
Variable pearson_text : Fit → string.

Abbreviation run' := (script corr linregress regression_text pearson_text).
Abbreviation body' := (analysis_body corr linregress regression_text pearson_text).

(** The second part of a run, once the pie is drawn and the load has
    answered. *)
Lemma run_loaded w c' loaded out st :
  Exists (λ d, d ≠ 0) (deltas (answers w)) →
  load_and_prepare (cached w) (files w) = (c', loaded) →
  mbind (mbind (emit (StHeader "2. Sample Data & Analysis"))
               (λ _, try_except_FileNotFoundError (body' loaded)
                       (emit (StError not_found_message))))
        (λ _, references) = (out, st) →
  ∃ r, quiz_result (globals w) (answers w) = Ok r
       ∧ run' w = mkRun (quiz_displays r ++ out) st c'
       ∧ quiz_page (run' w) = quiz_displays r.
Proof.
  intros Hnz Hload Hout.
  destruct (quiz_part (Matrix:=Matrix) (Fit:=Fit) (globals w) (answers w) Hnz)
    as (g & r & Hr & Hq).
  exists r. split; [exact Hr|].
  assert (Hrun : run' w = mkRun (quiz_displays r ++ out) st c').
  { unfold script. rewrite Hq. unfold analysis_section. rewrite Hload, Hout. reflexivity. }
  split; [exact Hrun|]. rewrite Hrun. reflexivity.
Qed.

(** X10. When some answer is counted, nothing is cached and the file holds
    a table that lacks one of the eight contributors, the run ends with the
    [KeyError] of the load: the page stops after the header of the second
    part, without the error message for a missing file and without the
    references, and nothing is cached. *)
Theorem run_missing_column w df pre col post :
  Exists (λ d, d ≠ 0) (deltas (answers w)) →
  cached w = None →
  files w !! data_path = Some (Csv df) →
  df ≠ ∅ →
  diet_columns = pre ++ col :: post →
  Forall (λ c, is_Some (df !! c)) pre →
  df !! col = None →
  status (run' w) = Raise (KeyError col)
  ∧ cache_after (run' w) = None
  ∧ page (run' w) = quiz_page (run' w) ++ [StHeader "2. Sample Data & Analysis"].
Proof.
  intros Hnz Hc Hfs Hne Hsplit Hpre Hmiss.
  assert (Hload : load_and_prepare (cached w) (files w) = (None, Raise (KeyError col))).
  { rewrite Hc. exact (proj2 (load_missing_column _ _ _ _ _ Hfs Hne Hsplit Hpre Hmiss)). }
  destruct (run_loaded w _ _ _ _ Hnz Hload eq_refl) as (r & _ & Hrun & Hq).
  rewrite Hq, Hrun. cbn [status cache_after page]. done.
Qed.





Lemma load_and_prepare_shape c fs c' loaded :
  load_and_prepare c fs = (c', loaded) →
  match c' with
  | Some df => loaded = Ok df
  | None => c = None ∧ ∃ e, loaded = Raise e
  end.
Proof.
  unfold load_and_prepare. destruct c as [df|].
  - intros [= <- <-]. reflexivity.
  - destruct (load_and_prepare_body fs) as [df|e]; intros [= <- <-]; eauto.
Qed.

(** X14. Once a run has left a table in the cache, a later run on the same
    selections is the same run, whatever the files have become: the file is
    not read again. *)
Theorem run_from_cache w1 w2 df :
  cache_after (script corr linregress regression_text pearson_text w1) = Some df →
  cached w2 = Some df →
  answers w2 = answers w1 →
  script corr linregress regression_text pearson_text w2
  = script corr linregress regression_text pearson_text w1.
Proof.
  intros Hafter Hc2 Hans.
  destruct (deltas_zero_or_not (deltas (answers w1))) as [Hz|Hnz].
  - pose proof (run_quiz_raises corr linregress regression_text pearson_text w1 Hz) as H1.
    rewrite <- Hans in Hz.
    pose proof (run_quiz_raises corr linregress regression_text pearson_text w2 Hz) as H2.
    rewrite H1 in Hafter. cbn [cache_after] in Hafter.
    rewrite H1, H2. congruence.
  - destruct (load_and_prepare (cached w1) (files w1)) as [c1 l1] eqn:E1.
    destruct (mbind (mbind (emit (StHeader "2. Sample Data & Analysis"))
                (λ _, try_except_FileNotFoundError (body' l1)
                        (emit (StError not_found_message))))
                (λ _, references)) as [out st] eqn:Hout.
    destruct (run_loaded w1 _ _ _ _ Hnz E1 Hout) as (r1 & Hr1 & Hrun1 & _).
    rewrite Hrun1 in Hafter. cbn [cache_after] in Hafter. subst c1.
    apply load_and_prepare_shape in E1 as E1'. cbn in E1'. subst l1.
    assert (E2 : load_and_prepare (cached w2) (files w2) = (Some df, Ok df)).
    { rewrite Hc2. reflexivity. }
    rewrite <- Hans in Hnz.
    destruct (run_loaded w2 _ _ _ _ Hnz E2 Hout) as (r2 & Hr2 & Hrun2 & _).
    rewrite Hans in Hr2. rewrite quiz_result_returns in Hr1, Hr2.
    rewrite Hrun1, Hrun2. congruence.
Qed.

(** The body of the [try] displays no header. *)
Lemma analysis_body_no_header loaded :
  Forall (λ o, ∀ s, o ≠ StHeader s) (body' loaded).1.
Proof.
  unfold analysis_body.
  repeat (cbn [mbind lift emit fst app];
          try match goal with
              | |- context [match ?x with Ok _ => _ | Raise _ => _ end] => destruct x
              end);
    repeat (apply Forall_cons; split; [discriminate|]); apply Forall_nil_2.
Qed.

(** X15. The references are displayed exactly when the run ends without an
    exception: an exception that escapes the [try] ends the page where it
    was raised. *)
Theorem references_iff_completed w :
  status (script corr linregress regression_text pearson_text w) = Ok tt
  ↔ StHeader "References" ∈ page (script corr linregress regression_text pearson_text w).
Proof.
  destruct (deltas_zero_or_not (deltas (answers w))) as [Hz|Hnz].
  { rewrite (run_quiz_raises corr linregress regression_text pearson_text w Hz).
    cbn [status page take quiz_displays]. split; [discriminate|].
    rewrite !elem_of_cons, elem_of_nil. intros H.
    repeat (destruct H as [H|H]; [discriminate|]). done. }
  destruct (load_and_prepare (cached w) (files w)) as [c' l] eqn:Hload.
  pose proof (analysis_body_no_header l) as Hbody.
  destruct (mbind (mbind (emit (StHeader "2. Sample Data & Analysis"))
              (λ _, try_except_FileNotFoundError (body' l)
                      (emit (StError not_found_message))))
              (λ _, references)) as [out st] eqn:Hout.
  destruct (run_loaded w _ _ _ _ Hnz Hload Hout) as (r & _ & Hrun & _).
  rewrite Hrun. cbn [status page].
  unfold try_except_FileNotFoundError in Hout.
  destruct (body' l) as [ob [[]|e]]; cbn [fst] in Hbody.
  - cbn in Hout. injection Hout as <- <-. split; [intros _|done].
    rewrite elem_of_app, elem_of_cons, elem_of_app, elem_of_cons. tauto.
  - assert (Hno : StHeader "References" ∉ quiz_displays r
                    ++ StHeader "2. Sample Data & Analysis" :: ob).
    { rewrite not_elem_of_app, not_elem_of_cons. split; [|split].
      - unfold quiz_displays. rewrite !not_elem_of_cons. repeat split; try discriminate.
        apply not_elem_of_nil.
      - discriminate.
      - intros Hin. rewrite Forall_forall in Hbody. by apply (Hbody _ Hin "References"). }
    destruct e; cbn in Hout; injection Hout as <- <-;
      try (split; [discriminate|intros Hin; by destruct Hno]).
    split; [intros _|done].
    rewrite elem_of_app, elem_of_cons, !elem_of_app, !elem_of_cons. tauto.
Qed.

(** X16. When no answer counts as healthy or unhealthy, the pie chart of
    line 65 raises [ValueError] and ends the run: the page holds the title,
    the introduction, the two headers of the quiz and the three result
    lines, all at 0; the second part and the references are never reached
    and the cache is left as it was. *)
Theorem run_pie_raises w :
  Forall (λ d, d = 0) (deltas (answers w)) →
  status (run' w) = Raise ValueError
  ∧ cache_after (run' w) = cached w
  ∧ page (run' w)
    = [StTitle "Diet and Brain Health Explorer";
       StWrite "Complete the quiz to see how brain-healthy your diet is, then explore how diet scores relate to cognitive test results.";
       StHeader "1. Personal Diet Quiz";
       StSubheader "Quiz Results";
       StWrite "• Total score: **0**";
       StWrite "• Healthy choices: **0**  Unhealthy choices: **0**";
       StWrite "• Percent healthy: **0%**"].
Proof.
  intros Hz.
  rewrite (run_quiz_raises corr linregress regression_text pearson_text w Hz).
  cbn [status cache_after page]. split; [reflexivity|]. split; reflexivity.
Qed.

End RunFacts.

Lemma run_missing_column_witness :
  status (stub_script (mkWorld (mkGlobals 0 0 0) None best
                         {[ data_path := Csv (delete "fish" sample_table) ]}))
  = Raise (KeyError "fish").
Proof.
  refine (proj1 (run_missing_column (λ _, tt) (λ _ _, Ok tt) (λ _, "regression")
                   (λ _, "pearson")
                   (mkWorld (mkGlobals 0 0 0) None best
                      {[ data_path := Csv (delete "fish" sample_table) ]})
                   (delete "fish" sample_table) ["leafy_greens"; "berries"] "fish"
                   ["nuts"; "olive_oil"; "red_meat"; "sweets"; "fast_food"]
                   _ eq_refl eq_refl _ eq_refl _ eq_refl)).
  - vm_compute. apply Exists_cons_hd. discriminate.
  - intros H. assert (E : delete "fish" sample_table !! "berries" = Some (Int64 [1; 0; 5]))
      by reflexivity.
    rewrite H in E. unfold DataFrame in E. by rewrite lookup_empty in E.
  - repeat (apply Forall_cons; split; [eexists; reflexivity|]).
    apply Forall_nil_2.
Defined.




Lemma run_from_cache_witness :
  stub_script (mkWorld (mkGlobals 17 6 0) (Some prepared_table) best ∅)
  = stub_script (mkWorld (mkGlobals 0 0 0) None best sample_files).
Proof.
  exact (run_from_cache (λ _, tt) (λ _ _, Ok tt) (λ _, "regression") (λ _, "pearson")
           (mkWorld (mkGlobals 0 0 0) None best sample_files)
           (mkWorld (mkGlobals 17 6 0) (Some prepared_table) best ∅)
           prepared_table eq_refl eq_refl eq_refl).
Defined.

Lemma run_pie_raises_witness :
  status (stub_script (mkWorld (mkGlobals 0 0 0) None neutral sample_files))
  = Raise ValueError.
Proof.
  refine (proj1 (run_pie_raises (λ _, tt) (λ _ _, Ok tt) (λ _, "regression")
                   (λ _, "pearson")
                   (mkWorld (mkGlobals 0 0 0) None neutral sample_files) _)).
  vm_compute. repeat constructor.
Defined.
